(** * The banking system of [main.py]: accounts, transactions and the
      request handlers that read and change them.

    The development embeds the handlers of [src/main.py] as functions on an
    explicit database value and states the accounting properties over them.

    Numbers.  A Python [float] is a binary64 number, here a primitive
    [float]: [+], [-], [<] and [==] are the IEEE 754 operations, rounded to
    nearest, with the two infinities and NaN.  A [Float] column holds such a
    number or NULL; SQLite stores NaN as NULL, so a column that is read back
    is never NaN.  A Python [int] is a [Z]; an [Integer] column of the store
    holds 64 bits, and binding an [int] outside that range to a statement
    raises [OverflowError].  [String] columns are [string], and a [DateTime]
    is a reading of the clock, a [Z].

    Requests.  A handler receives its parameters parsed and typed; a request
    that does not parse is answered before the handler runs and is not part
    of the model.  The exceptions are the ones the handlers raise themselves
    and the two the values above give rise to, [OverflowError] and
    [TypeError].  The model ends where the handler returns or raises: a
    request succeeds when its handler returns, and what the framework does
    with the returned value afterwards (rendering it as JSON) is not part of
    it. *)

From Stdlib Require Import ZArith String Lia Floats.
From stdpp Require Import base option list fin_maps gmap.

Set Warnings "-inexact-float".

Local Open Scope Z_scope.
Local Open Scope string_scope.

(** ** Numbers *)

(** [x == y] on values that are a float or [None]. *)
Definition py_eq (x y : option float) : bool :=
  match x, y with
  | Some a, Some b => (a =? b)%float
  | None, None => true
  | _, _ => false
  end.

(** What a [Float] column holds once [x] is written to it: NaN becomes NULL. *)
Definition sqlite_real (x : option float) : option float :=
  match x with
  | Some v => if is_nan v then None else Some v
  | None => None
  end.

(** The integers an [Integer] column, or a bound parameter, can hold. *)
Definition sqlite_int (z : Z) : bool :=
  ((-9223372036854775808 <=? z) && (z <=? 9223372036854775807))%Z.

(** [x] is a number other than NaN and the two infinities. *)
Definition finite (x : float) : bool :=
  (x <? infinity)%float && (neg_infinity <? x)%float.

(** The column [col] holds the number [v] as the store keeps it: a number
    equal to [v], or NULL when [v] is NaN. *)
Definition stored_as (col : option float) (v : float) : Prop :=
  match col with
  | Some w => (w =? v)%float = true
  | None => is_nan v = true
  end.

(** The sign of a result of the binary64 specification. *)
Definition sf_signed (s : bool) (x : spec_float) : Prop :=
  match x with
  | S754_zero s' | S754_infinity s' | S754_finite s' _ _ => s' = s
  | S754_nan => False
  end.

(** The mantissa of a finite number at the exponent [ez], with its sign. *)
Definition aligned (s : bool) (m : positive) (e ez : Z) : Z :=
  cond_Zopp s (Zpos (fst (shl_align m e ez))).

(** ** Data model *)

(** A row of the table [accounts].  The primary key [id] is the key under
    which the row is stored in the table (see [Database]); the record holds
    the other columns.  The same record is the state of the ORM object of
    the row, whose [balance] is a float or [None]. *)
Module AccountDB.
Record t : Type := mk {
  balance : option float;
  owner : string;
  created_at : Z;
  updated_at : Z;
  deleted_at : option Z
}.

Definition set_balance (v : option float) (r : t) : t :=
  mk v (owner r) (created_at r) (updated_at r) (deleted_at r).
Definition set_owner (v : string) (r : t) : t :=
  mk (balance r) v (created_at r) (updated_at r) (deleted_at r).
Definition set_updated_at (v : Z) (r : t) : t :=
  mk (balance r) (owner r) (created_at r) v (deleted_at r).

(** Two states of one row hold the same column values ([==] on each): no
    UPDATE is emitted for such a row when the session is flushed. *)
Definition same_values (r0 r1 : t) : bool :=
  py_eq (balance r0) (balance r1)
  && bool_decide (owner r0 = owner r1)
  && bool_decide (created_at r0 = created_at r1)
  && bool_decide (updated_at r0 = updated_at r1)
  && bool_decide (deleted_at r0 = deleted_at r1).

(** The row as the store keeps it. *)
Definition stored (r : t) : t := set_balance (sqlite_real (balance r)) r.
End AccountDB.

(** A row of the table [transactions], keyed by its primary key [id]. *)
Module TransactionDB.
Record t : Type := mk {
  account_id : Z;
  amount : option float;
  type : string;
  created_at : Z;
  deleted_at : option Z
}.

Definition set_deleted_at (v : option Z) (r : t) : t :=
  mk (account_id r) (amount r) (type r) (created_at r) v.

(** The row as the store keeps it. *)
Definition stored (r : t) : t :=
  mk (account_id r) (sqlite_real (amount r)) (type r) (created_at r) (deleted_at r).
End TransactionDB.

(** The request bodies (the pydantic models), with every field populated. *)
Module AccountCreate.
Record t : Type := mk {
  owner : string;
  balance : float;
  created_at : Z;
  updated_at : Z;
  deleted_at : option Z
}.
End AccountCreate.

Module TransactionCreate.
Record t : Type := mk {
  amount : float;
  type : string;
  created_at : Z;
  deleted_at : option Z
}.
End TransactionCreate.

(** The persistent store: the two tables, each a finite map from the primary
    key to the row. *)
Record Database : Type := mkDatabase {
  accounts : gmap Z AccountDB.t;
  transactions : gmap Z TransactionDB.t
}.

Definition empty_db : Database := mkDatabase ∅ ∅.

(** An ORM object is named by the primary key of its row: the session hands
    out one object per key, so two queries for the same key give the same
    object. *)
Definition AccountRef : Type := Z.
Definition TransactionRef : Type := Z.

(** ** Exceptions and responses *)

(** [detail] is either a literal message or [str(e)] of a caught exception. *)
Inductive exn : Type :=
| HTTPException (status_code : Z) (d : detail)
| OverflowError (message : string)
| TypeError (message : string)
with detail : Type :=
| Lit (s : string)
| Str (e : exn).

(** [e.status_code], for the exceptions that have one. *)
Definition status_code_of (e : exn) : option Z :=
  match e with
  | HTTPException c _ => Some c
  | _ => None
  end.

(** The JSON bodies the handlers return. *)
Inductive Body : Type :=
| BAccounts (accounts : list (Z * AccountDB.t))
| BAccount (account : Z * AccountDB.t)
| BMessage (message : string)
| BMessageAccount (message : string) (account : Z * AccountDB.t)
| BMessageTransfer (message : string) (account target_account : Z * AccountDB.t)
| BTransactions (transactions : list (Z * TransactionDB.t))
| BMessageTransaction (message : string) (transaction : Z * TransactionDB.t).

(** The outcome of a handler: the body it returns, or the exception it
    raises. *)
Definition Response : Type := exn + Body.

(** ** The session *)

(** A session works on [pending], its own view of the rows, and keeps in
    [modified] the account objects an attribute of which was assigned;
    [commit] writes that view to [committed], the store.  A session that
    ends without [commit] leaves the store as it was. *)
Record Session : Type := mkSession {
  committed : Database;
  pending : Database;
  modified : gset Z
}.

Definition SessionLocal (db : Database) : Session := mkSession db db ∅.

(** Handler code: it reads and changes the session and either returns a
    value or raises. *)
Definition M (A : Type) : Type := Session → (exn + A) * Session.

#[global] Instance M_ret : MRet M := λ A x s, (inr x, s).
#[global] Instance M_bind : MBind M := λ A B f m s,
  match m s with
  | (inl e, s') => (inl e, s')
  | (inr a, s') => f a s'
  end.

Definition raise {A : Type} (e : exn) : M A := λ s, (inl e, s).

(** [try: body except Exception as e: handler e]. *)
Definition try_except {A : Type} (body : M A) (handler : exn → M A) : M A :=
  λ s, match body s with
       | (inl e, s') => handler e s'
       | (inr a, s') => (inr a, s')
       end.

(** The clause every handler ends with:
    [except Exception as e: raise HTTPException(status_code=500, detail=str(e))]. *)
Definition internal_error {A : Type} (e : exn) : M A :=
  raise (HTTPException 500 (Str e)).

(** *** Rows that never occur, for total attribute reads *)
#[global] Instance AccountDB_inhabited : Inhabited AccountDB.t :=
  populate (AccountDB.mk None "" 0 0 None).
#[global] Instance TransactionDB_inhabited : Inhabited TransactionDB.t :=
  populate (TransactionDB.mk 0 None "" 0 None).

(** *** Values the interpreter and the driver refuse *)

(** Binding a Python int to a statement of the store. *)
Definition int_too_large : exn :=
  OverflowError "Python int too large to convert to SQLite INTEGER".

(** [None < amount], [None += amount] and [None -= amount]. *)
Definition none_lt : exn :=
  TypeError "'<' not supported between instances of 'NoneType' and 'float'".
Definition none_iadd : exn :=
  TypeError "unsupported operand type(s) for +=: 'NoneType' and 'float'".
Definition none_isub : exn :=
  TypeError "unsupported operand type(s) for -=: 'NoneType' and 'float'".

(** [x < y] where [x] is the balance of an object. *)
Definition py_lt (x : option float) (y : float) : M bool :=
  match x with
  | Some a => mret (a <? y)%float
  | None => raise none_lt
  end.

(** *** Queries *)

(** [db.query(AccountDB).filter(AccountDB.deleted_at.is_(None)).all()] *)
Definition query_accounts_active : M (list (Z * AccountDB.t)) := λ s,
  (inr (map_to_list
          (filter (λ kr, AccountDB.deleted_at kr.2 = None) (accounts (pending s)))),
   s).

(** [db.query(AccountDB).filter(AccountDB.id == account_id,
     AccountDB.deleted_at.is_(None)).first()] *)
Definition query_account_first (account_id : Z) : M (option AccountRef) := λ s,
  if sqlite_int account_id
  then (inr (match accounts (pending s) !! account_id with
             | Some r => match AccountDB.deleted_at r with
                         | None => Some account_id
                         | Some _ => None
                         end
             | None => None
             end),
        s)
  else (inl int_too_large, s).

(** [db.query(TransactionDB).filter(TransactionDB.account_id == account_id,
     TransactionDB.deleted_at.is_(None)).all()] *)
Definition query_transactions_of (account_id : Z) : M (list (Z * TransactionDB.t)) := λ s,
  if sqlite_int account_id
  then (inr (map_to_list
               (filter (λ kr, TransactionDB.account_id kr.2 = account_id
                              ∧ TransactionDB.deleted_at kr.2 = None)
                       (transactions (pending s)))),
        s)
  else (inl int_too_large, s).

(** [db.query(TransactionDB).filter(TransactionDB.id == transaction_id,
     TransactionDB.deleted_at.is_(None)).first()] *)
Definition query_transaction_first (transaction_id : Z) : M (option TransactionRef) := λ s,
  if sqlite_int transaction_id
  then (inr (match transactions (pending s) !! transaction_id with
             | Some r => match TransactionDB.deleted_at r with
                         | None => Some transaction_id
                         | Some _ => None
                         end
             | None => None
             end),
        s)
  else (inl int_too_large, s).

(** *** Objects: attribute reads and writes *)

(** The object as the session holds it. *)
Definition account_obj (ref : AccountRef) : M (Z * AccountDB.t) := λ s,
  (inr (ref, accounts (pending s) !!! ref), s).

Definition transaction_obj (ref : TransactionRef) : M (Z * TransactionDB.t) := λ s,
  (inr (ref, transactions (pending s) !!! ref), s).

(** [obj.balance] *)
Definition get_balance (ref : AccountRef) : M (option float) := λ s,
  (inr (AccountDB.balance (accounts (pending s) !!! ref)), s).

Definition alter_account (f : AccountDB.t → AccountDB.t) (ref : AccountRef) : M unit := λ s,
  (inr (),
   mkSession (committed s)
     (mkDatabase (alter f ref (accounts (pending s))) (transactions (pending s)))
     ({[ref]} ∪ modified s)).

Definition alter_transaction (f : TransactionDB.t → TransactionDB.t) (ref : TransactionRef)
  : M unit := λ s,
  (inr (),
   mkSession (committed s)
     (mkDatabase (accounts (pending s)) (alter f ref (transactions (pending s))))
     (modified s)).

(** [obj.balance = v] and [obj.owner = v] *)
Definition assign_balance (ref : AccountRef) (v : option float) : M unit :=
  alter_account (AccountDB.set_balance v) ref.
Definition assign_owner (ref : AccountRef) (v : string) : M unit :=
  alter_account (AccountDB.set_owner v) ref.

(** [obj.balance += v] and [obj.balance -= v]: the balance is read, the
    binary64 sum or difference is assigned; a balance that is [None] has no
    [+] and no [-]. *)
Definition iadd_balance (ref : AccountRef) (v : float) : M unit :=
  balance ← get_balance ref;
  match balance with
  | Some b => assign_balance ref (Some (b + v)%float)
  | None => raise none_iadd
  end.

Definition isub_balance (ref : AccountRef) (v : float) : M unit :=
  balance ← get_balance ref;
  match balance with
  | Some b => assign_balance ref (Some (b - v)%float)
  | None => raise none_isub
  end.

(** [obj.deleted_at = v] on a transaction *)
Definition assign_transaction_deleted_at (ref : TransactionRef) (v : Z) : M unit :=
  alter_transaction (TransactionDB.set_deleted_at (Some v)) ref.

(** *** Adding and deleting rows *)

(** The key an INTEGER PRIMARY KEY column gives a new row: one more than the
    largest key of the table, 1 in an empty table. *)
Definition max_key {A : Type} (m : gmap Z A) : Z :=
  map_fold (λ k _ acc, Z.max k acc) 0 m.
Definition fresh_key {A : Type} (m : gmap Z A) : Z := max_key m + 1.

(** [db.add(AccountDB(...))] *)
Definition add_account (r : AccountDB.t) : M AccountRef := λ s,
  let k := fresh_key (accounts (pending s)) in
  (inr k,
   mkSession (committed s)
     (mkDatabase (<[k := r]> (accounts (pending s))) (transactions (pending s)))
     (modified s)).

(** [db.add(TransactionDB(...))] *)
Definition add_transaction (r : TransactionDB.t) : M TransactionRef := λ s,
  let k := fresh_key (transactions (pending s)) in
  (inr k,
   mkSession (committed s)
     (mkDatabase (accounts (pending s)) (<[k := r]> (transactions (pending s))))
     (modified s)).

(** [db.delete(obj)]: the row is removed from the table. *)
Definition delete_account_row (ref : AccountRef) : M unit := λ s,
  (inr (),
   mkSession (committed s)
     (mkDatabase (delete ref (accounts (pending s))) (transactions (pending s)))
     (modified s)).

(** *** Commit and refresh *)

(** The row of the store after the object of the row [r0] was assigned to
    and is now [r]: when the values are the same no UPDATE is emitted; when
    one has changed, the UPDATE sets the columns whose value has changed and
    [updated_at = now] ([onupdate=datetime.now]). *)
Definition write_row (now : Z) (r0 r : AccountDB.t) : AccountDB.t :=
  if AccountDB.same_values r0 r
  then r0
  else AccountDB.mk
         (if py_eq (AccountDB.balance r0) (AccountDB.balance r)
          then AccountDB.balance r0 else sqlite_real (AccountDB.balance r))
         (AccountDB.owner r) (AccountDB.created_at r) now (AccountDB.deleted_at r).

(** The row written for key [k]: an object that was assigned to is written
    as above, an object that was only read is left alone, a new object is
    inserted. *)
Definition flush_account (now : Z) (old : gmap Z AccountDB.t) (dirty : gset Z)
  (k : Z) (r : AccountDB.t) : AccountDB.t :=
  match old !! k with
  | Some r0 => if bool_decide (k ∈ dirty) then write_row now r0 r else r0
  | None => AccountDB.stored r
  end.

(** The table [accounts] after the rows [new] of the session are written over
    the rows [old] of the store. *)
Definition flush_accounts (now : Z) (old : gmap Z AccountDB.t) (dirty : gset Z)
  (new : gmap Z AccountDB.t) : gmap Z AccountDB.t :=
  map_imap (λ k r, Some (flush_account now old dirty k r)) new.

(** The same for [transactions]: a new row is inserted, a row of the store
    is written as the session holds it. *)
Definition flush_transaction (old : gmap Z TransactionDB.t) (k : Z) (r : TransactionDB.t)
  : TransactionDB.t :=
  match old !! k with
  | Some _ => r
  | None => TransactionDB.stored r
  end.

Definition flush_transactions (old new : gmap Z TransactionDB.t) : gmap Z TransactionDB.t :=
  map_imap (λ k r, Some (flush_transaction old k r)) new.

(** The INSERT of every new row of [transactions] binds its [account_id]. *)
Definition inserts_bind (old new : gmap Z TransactionDB.t) : bool :=
  bool_decide (map_Forall (λ k r, is_Some (old !! k)
                                  ∨ sqlite_int (TransactionDB.account_id r) = true) new).

(** [db.commit()]: the store becomes the view of the session, which then
    reads from the store again; when a statement cannot be bound the commit
    raises and the store is left as it was. *)
Definition commit (now : Z) : M unit := λ s,
  if inserts_bind (transactions (committed s)) (transactions (pending s))
  then
    let db := mkDatabase
                (flush_accounts now (accounts (committed s)) (modified s)
                   (accounts (pending s)))
                (flush_transactions (transactions (committed s)) (transactions (pending s))) in
    (inr (), mkSession db db ∅)
  else (inl int_too_large, s).

(** [db.refresh(obj)]: the object is read again from the store. *)
Definition refresh_account (ref : AccountRef) : M unit := λ s,
  (inr (),
   match accounts (committed s) !! ref with
   | Some r => mkSession (committed s)
                 (mkDatabase (<[ref := r]> (accounts (pending s))) (transactions (pending s)))
                 (modified s)
   | None => s
   end).

Definition refresh_transaction (ref : TransactionRef) : M unit := λ s,
  (inr (),
   match transactions (committed s) !! ref with
   | Some r => mkSession (committed s)
                 (mkDatabase (accounts (pending s)) (<[ref := r]> (transactions (pending s))))
                 (modified s)
   | None => s
   end).

(** ** The request handlers

    Each handler is the function of the same name: [f_try] is its [try]
    block and [f] the whole function, the block under the [except] clause.
    [now] is the reading of the clock while the request is served. *)

(** The exceptions the handlers raise in their [try] blocks. *)
Definition account_not_found : exn := HTTPException 404 (Lit "Account not found").
Definition transaction_not_found : exn := HTTPException 404 (Lit "Transaction not found").
Definition insufficient_funds : exn := HTTPException 400 (Lit "Insufficient funds").

Definition get_accounts_try : M Body :=
  accounts ← query_accounts_active;
  mret (BAccounts accounts).

Definition get_accounts : M Body :=
  try_except get_accounts_try internal_error.

Definition create_account_try (now : Z) (account : AccountCreate.t) : M Body :=
  db_account ← add_account
    (AccountDB.mk (Some (AccountCreate.balance account))
                  (AccountCreate.owner account)
                  (AccountCreate.created_at account)
                  (AccountCreate.updated_at account)
                  (AccountCreate.deleted_at account));
  commit now;;
  refresh_account db_account;;
  obj ← account_obj db_account;
  mret (BMessageAccount "Account created successfully" obj).

Definition create_account (now : Z) (account : AccountCreate.t) : M Body :=
  try_except (create_account_try now account) internal_error.

Definition get_account_try (account_id : Z) : M Body :=
  account ← query_account_first account_id;
  match account with
  | None => raise account_not_found
  | Some account =>
      obj ← account_obj account;
      mret (BAccount obj)
  end.

Definition get_account (account_id : Z) : M Body :=
  try_except (get_account_try account_id) internal_error.

Definition update_account_try (now : Z) (account_id : Z) (account : AccountCreate.t) : M Body :=
  db_account ← query_account_first account_id;
  match db_account with
  | None => raise account_not_found
  | Some db_account =>
      assign_owner db_account (AccountCreate.owner account);;
      assign_balance db_account (Some (AccountCreate.balance account));;
      commit now;;
      refresh_account db_account;;
      obj ← account_obj db_account;
      mret (BMessageAccount "Account updated successfully" obj)
  end.

Definition update_account (now : Z) (account_id : Z) (account : AccountCreate.t) : M Body :=
  try_except (update_account_try now account_id account) internal_error.

Definition delete_account_try (now : Z) (account_id : Z) : M Body :=
  db_account ← query_account_first account_id;
  match db_account with
  | None => raise account_not_found
  | Some db_account =>
      delete_account_row db_account;;
      commit now;;
      mret (BMessage "Account deleted successfully")
  end.

Definition delete_account (now : Z) (account_id : Z) : M Body :=
  try_except (delete_account_try now account_id) internal_error.

Definition deposit_try (now : Z) (account_id : Z) (amount : float) : M Body :=
  db_account ← query_account_first account_id;
  match db_account with
  | None => raise account_not_found
  | Some db_account =>
      iadd_balance db_account amount;;
      commit now;;
      refresh_account db_account;;
      obj ← account_obj db_account;
      mret (BMessageAccount "Deposit successful" obj)
  end.

Definition deposit (now : Z) (account_id : Z) (amount : float) : M Body :=
  try_except (deposit_try now account_id amount) internal_error.

Definition withdraw_try (now : Z) (account_id : Z) (amount : float) : M Body :=
  db_account ← query_account_first account_id;
  match db_account with
  | None => raise account_not_found
  | Some db_account =>
      balance ← get_balance db_account;
      below ← py_lt balance amount;
      if below : bool then raise insufficient_funds
      else
        isub_balance db_account amount;;
        commit now;;
        refresh_account db_account;;
        obj ← account_obj db_account;
        mret (BMessageAccount "Withdrawal successful" obj)
  end.

Definition withdraw (now : Z) (account_id : Z) (amount : float) : M Body :=
  try_except (withdraw_try now account_id amount) internal_error.

Definition transfer_try (now : Z) (account_id target_account_id : Z) (amount : float)
  : M Body :=
  source_account ← query_account_first account_id;
  target_account ← query_account_first target_account_id;
  match source_account, target_account with
  | Some source_account, Some target_account =>
      balance ← get_balance source_account;
      below ← py_lt balance amount;
      if below : bool then raise insufficient_funds
      else
        isub_balance source_account amount;;
        iadd_balance target_account amount;;
        commit now;;
        refresh_account source_account;;
        refresh_account target_account;;
        src ← account_obj source_account;
        tgt ← account_obj target_account;
        mret (BMessageTransfer "Transfer successful" src tgt)
  | _, _ => raise account_not_found
  end.

Definition transfer (now : Z) (account_id target_account_id : Z) (amount : float) : M Body :=
  try_except (transfer_try now account_id target_account_id amount) internal_error.

Definition get_transactions_try (account_id : Z) : M Body :=
  transactions ← query_transactions_of account_id;
  mret (BTransactions transactions).

Definition get_transactions (account_id : Z) : M Body :=
  try_except (get_transactions_try account_id) internal_error.

Definition create_transaction_try (now : Z) (account_id : Z) (transaction : TransactionCreate.t)
  : M Body :=
  db_transaction ← add_transaction
    (TransactionDB.mk account_id
                      (Some (TransactionCreate.amount transaction))
                      (TransactionCreate.type transaction)
                      (TransactionCreate.created_at transaction)
                      (TransactionCreate.deleted_at transaction));
  commit now;;
  refresh_transaction db_transaction;;
  obj ← transaction_obj db_transaction;
  mret (BMessageTransaction "Transaction created successfully" obj).

Definition create_transaction (now : Z) (account_id : Z) (transaction : TransactionCreate.t)
  : M Body :=
  try_except (create_transaction_try now account_id transaction) internal_error.

Definition delete_transaction_try (now : Z) (account_id transaction_id : Z) : M Body :=
  db_transaction ← query_transaction_first transaction_id;
  match db_transaction with
  | None => raise transaction_not_found
  | Some db_transaction =>
      assign_transaction_deleted_at db_transaction now;;
      commit now;;
      mret (BMessage "Transaction deleted successfully")
  end.

Definition delete_transaction (now : Z) (account_id transaction_id : Z) : M Body :=
  try_except (delete_transaction_try now account_id transaction_id) internal_error.

(** ** Serving a request *)

(** [get_db]: a session is opened on the store, the handler runs in it, and
    the session is closed; what was not committed is dropped. *)
Definition run (handler : M Body) (db : Database) : Response * Database :=
  let '(r, s) := handler (SessionLocal db) in (r, committed s).

(** The routes of the application. *)
Inductive Request : Type :=
| GetAccounts
| CreateAccount (account : AccountCreate.t)
| GetAccount (account_id : Z)
| UpdateAccount (account_id : Z) (account : AccountCreate.t)
| DeleteAccount (account_id : Z)
| Deposit (account_id : Z) (amount : float)
| Withdraw (account_id : Z) (amount : float)
| Transfer (account_id target_account_id : Z) (amount : float)
| GetTransactions (account_id : Z)
| CreateTransaction (account_id : Z) (transaction : TransactionCreate.t)
| DeleteTransaction (account_id transaction_id : Z).

Definition route (now : Z) (req : Request) : M Body :=
  match req with
  | GetAccounts => get_accounts
  | CreateAccount a => create_account now a
  | GetAccount i => get_account i
  | UpdateAccount i a => update_account now i a
  | DeleteAccount i => delete_account now i
  | Deposit i x => deposit now i x
  | Withdraw i x => withdraw now i x
  | Transfer i j x => transfer now i j x
  | GetTransactions i => get_transactions i
  | CreateTransaction i t => create_transaction now i t
  | DeleteTransaction i j => delete_transaction now i j
  end.

(** The [try] block of the handler of a route. *)
Definition try_block (now : Z) (req : Request) : M Body :=
  match req with
  | GetAccounts => get_accounts_try
  | CreateAccount a => create_account_try now a
  | GetAccount i => get_account_try i
  | UpdateAccount i a => update_account_try now i a
  | DeleteAccount i => delete_account_try now i
  | Deposit i x => deposit_try now i x
  | Withdraw i x => withdraw_try now i x
  | Transfer i j x => transfer_try now i j x
  | GetTransactions i => get_transactions_try i
  | CreateTransaction i t => create_transaction_try now i t
  | DeleteTransaction i j => delete_transaction_try now i j
  end.

Definition serve (now : Z) (req : Request) (db : Database) : Response * Database :=
  run (route now req) db.

(** The store after a sequence of requests, each with its clock reading. *)
Fixpoint serve_all (reqs : list (Z * Request)) (db : Database) : Database :=
  match reqs with
  | [] => db
  | (now, req) :: reqs => serve_all reqs (serve now req db).2
  end.

(** ** Reading the store *)

(** The row of an active account: the row a query for [account_id] finds.
    An id outside the range of the [Integer] column names no row. *)
Definition active_account (db : Database) (account_id : Z) : option AccountDB.t :=
  if sqlite_int account_id
  then match accounts db !! account_id with
       | Some r => match AccountDB.deleted_at r with None => Some r | Some _ => None end
       | None => None
       end
  else None.

(** The balance of an active account whose balance is not NULL. *)
Definition balance_of (db : Database) (account_id : Z) : option float :=
  active_account db account_id ≫= AccountDB.balance.

(** The kinds of failure of the specification, as the caller observes them in
    the status code of the response. *)
Definition fails_with (status : Z) (r : Response) : Prop :=
  ∃ d, r = inl (HTTPException status d).
Definition NotFound : Response → Prop := fails_with 404.
Definition InsufficientFunds : Response → Prop := fails_with 400.
Definition ValidationError (r : Response) : Prop := fails_with 400 r ∨ fails_with 422 r.
Definition InternalError : Response → Prop := fails_with 500.
Definition succeeds (r : Response) : Prop := ∃ b, r = inr b.
Definition fails (r : Response) : Prop := ∃ e, r = inl e.

(** The exception the caller receives when [e] was raised in a [try] block. *)
Definition reraised (e : exn) : exn := HTTPException 500 (Str e).

(** What a query for an account raises when it finds none: 404 from the
    handler, or the refusal to bind the id. *)
Definition no_account (account_id : Z) : exn :=
  if sqlite_int account_id then account_not_found else int_too_large.

(** The active account [account_id] holds the balance [v], as the store
    keeps it. *)
Definition balance_holds (db : Database) (account_id : Z) (v : float) : Prop :=
  ∃ r, active_account db account_id = Some r ∧ stored_as (AccountDB.balance r) v.

(** I1: every active account has a balance, and it is at least 0. *)
Definition I1 (db : Database) : Prop :=
  ∀ account_id r, active_account db account_id = Some r →
                  ∃ b, AccountDB.balance r = Some b ∧ (0 <=? b)%float = true.

(** The number a request carries is admissible: a balance of at least 0 for
    create and update, an amount of at least 0 for deposit, a finite amount
    for withdraw, a finite amount of at least 0 for transfer. *)
Definition nonneg_input (req : Request) : Prop :=
  match req with
  | CreateAccount a => (0 <=? AccountCreate.balance a)%float = true
  | UpdateAccount _ a => (0 <=? AccountCreate.balance a)%float = true
  | Deposit _ x => (0 <=? x)%float = true
  | Withdraw _ x => finite x = true
  | Transfer _ _ x => (0 <=? x)%float = true ∧ finite x = true
  | _ => True
  end.


(** ** Sample stores *)

(** The store after [create account owner="Alice", balance=100]. *)
Definition alice_100 : Database :=
  (serve 0 (CreateAccount (AccountCreate.mk "Alice" 100 0 0 None)) empty_db).2.

(** The store after [create A balance=10]. *)
Definition a_10 : Database :=
  (serve 0 (CreateAccount (AccountCreate.mk "A" 10 0 0 None)) empty_db).2.

(** The store after [create A balance=50, create B balance=0]. *)
Definition a50_b0 : Database :=
  serve_all [(0, CreateAccount (AccountCreate.mk "A" 50 0 0 None));
             (1, CreateAccount (AccountCreate.mk "B" 0 1 1 None))] empty_db.

(** The store after [create A balance=10, create B balance=10]. *)
Definition a10_b10 : Database :=
  serve_all [(0, CreateAccount (AccountCreate.mk "A" 10 0 0 None));
             (1, CreateAccount (AccountCreate.mk "B" 10 1 1 None))] empty_db.

(** The store after [create A balance=10, create B balance=0.1]. *)
Definition a10_b01 : Database :=
  serve_all [(0, CreateAccount (AccountCreate.mk "A" 10 0 0 None));
             (1, CreateAccount (AccountCreate.mk "B" 0.1 1 1 None))] empty_db.

(** The store after [create A balance=0.11]. *)
Definition a_011 : Database :=
  (serve 0 (CreateAccount (AccountCreate.mk "A" 0.11 0 0 None)) empty_db).2.

(** The store after [create A balance=1, create B balance=2^53]. *)
Definition a1_b2p53 : Database :=
  serve_all [(0, CreateAccount (AccountCreate.mk "A" 1 0 0 None));
             (1, CreateAccount (AccountCreate.mk "B" 9007199254740992 1 1 None))] empty_db.

(** A request for an account with a negative opening balance. *)
Definition overdrawn_alice : AccountCreate.t := AccountCreate.mk "Alice" (-5) 0 0 None.

(** A journal entry of a kind that is not one of the three. *)
Definition bogus_entry : TransactionCreate.t := TransactionCreate.mk 5 "bogus" 0 None.

(** ** Rows of requests, and what a body shows *)

(** The row [create_account] stores for its request. *)
Definition account_row (a : AccountCreate.t) : AccountDB.t :=
  AccountDB.stored
    (AccountDB.mk (Some (AccountCreate.balance a)) (AccountCreate.owner a)
       (AccountCreate.created_at a) (AccountCreate.updated_at a)
       (AccountCreate.deleted_at a)).

(** The row [create_transaction] stores for the path and its request. *)
Definition transaction_row (account_id : Z) (t : TransactionCreate.t) : TransactionDB.t :=
  TransactionDB.stored
    (TransactionDB.mk account_id (Some (TransactionCreate.amount t))
       (TransactionCreate.type t) (TransactionCreate.created_at t)
       (TransactionCreate.deleted_at t)).

(** A request served by one of the three handlers of the journal. *)
Definition journal_request (req : Request) : bool :=
  match req with
  | GetTransactions _ | CreateTransaction _ _ | DeleteTransaction _ _ => true
  | _ => false
  end.

(** Two accounts and three journal entries, one of them deleted. *)
Definition journal_db : Database :=
  serve_all [(0, CreateAccount (AccountCreate.mk "A" 10 0 0 None));
             (1, CreateAccount (AccountCreate.mk "B" 10 1 1 None));
             (2, CreateTransaction 1 (TransactionCreate.mk 5 "deposit" 2 None));
             (3, CreateTransaction 2 (TransactionCreate.mk 7 "transfer" 3 None));
             (4, CreateTransaction 1 (TransactionCreate.mk 9 "withdrawal" 4 None));
             (5, DeleteTransaction 1 3)] empty_db.

(** A request for an account that is deleted from the start. *)
Definition ghost_account : AccountCreate.t := AccountCreate.mk "Ghost" 40 0 0 (Some 0).

(** A row is kept up to its owner, balance and [updated_at]. *)
Definition kept (r r' : AccountDB.t) : Prop :=
  AccountDB.created_at r' = AccountDB.created_at r ∧
  AccountDB.deleted_at r' = AccountDB.deleted_at r ∧
  (AccountDB.deleted_at r ≠ None → r' = r).

(** The account rows and the journal rows a body shows. *)
Definition body_accounts (b : Body) : list (Z * AccountDB.t) :=
  match b with
  | BAccounts l => l
  | BAccount a => [a]
  | BMessageAccount _ a => [a]
  | BMessageTransfer _ a t => [a; t]
  | _ => []
  end.

Definition body_transactions (b : Body) : list (Z * TransactionDB.t) :=
  match b with
  | BTransactions l => l
  | BMessageTransaction _ t => [t]
  | _ => []
  end.

(** Unfolds a served request down to the lookups in the tables. *)
Ltac run_handler :=
  unfold serve, run, route,
    get_accounts, create_account, get_account, update_account, delete_account,
    deposit, withdraw, transfer, get_transactions, create_transaction,
    delete_transaction,
    get_accounts_try, create_account_try, get_account_try, update_account_try,
    delete_account_try, deposit_try, withdraw_try, transfer_try,
    get_transactions_try, create_transaction_try, delete_transaction_try,
    try_except, internal_error, raise, mbind, M_bind, mret, M_ret,
    query_accounts_active, query_account_first, query_transactions_of,
    query_transaction_first, account_obj, transaction_obj, get_balance,
    assign_balance, iadd_balance, isub_balance, assign_owner, py_lt,
    assign_transaction_deleted_at, alter_account, alter_transaction,
    add_account, add_transaction, delete_account_row, SessionLocal,
    mbind, M_bind, mret, M_ret, raise, get_balance, assign_balance, alter_account;
  cbn [committed pending modified accounts transactions fst snd].


(** * Lemmas *)

Local Close Scope string_scope.

(** ** The binary64 specification: digits, alignment, canonical numbers *)
Lemma digits2_pos_size (m : positive) : digits2_pos m = Pos.size m.
Proof. induction m; simpl; congruence. Qed.

Lemma digits2_pos_bounds (m : positive) :
  2 ^ (Zpos (digits2_pos m) - 1) <= Zpos m < 2 ^ Zpos (digits2_pos m).
Proof.
  induction m as [m IH|m IH|]; cbn [digits2_pos].
  - rewrite Pos2Z.inj_succ.
    replace (Z.succ (Zpos (digits2_pos m)) - 1) with (Z.succ (Zpos (digits2_pos m) - 1)) by lia.
    rewrite !Z.pow_succ_r by lia. lia.
  - rewrite Pos2Z.inj_succ.
    replace (Z.succ (Zpos (digits2_pos m)) - 1) with (Z.succ (Zpos (digits2_pos m) - 1)) by lia.
    rewrite !Z.pow_succ_r by lia. lia.
  - cbn. lia.
Qed.

Lemma iter_xO (m d : positive) : Zpos (Pos.iter xO m d) = Zpos m * 2 ^ Zpos d.
Proof.
  induction d as [|d IH] using Pos.peano_ind.
  - cbn. lia.
  - rewrite Pos.iter_succ, Pos2Z.inj_succ, Z.pow_succ_r by lia.
    rewrite Pos2Z.inj_xO, IH. lia.
Qed.

Lemma shl_align_fst (m : positive) (e e' : Z) :
  e' <= e -> Zpos (fst (shl_align m e e')) = Zpos m * 2 ^ (e - e').
Proof.
  intros H. unfold shl_align. destruct (e' - e) as [|p|p] eqn:E.
  - cbn. replace (e - e') with 0 by lia. cbn. lia.
  - lia.
  - cbn [fst]. rewrite iter_xO. f_equal. f_equal. lia.
Qed.

Lemma bounded_canonical (m : positive) (e : Z) :
  bounded prec emax m e = true ->
  -1074 <= e /\ Zpos m < 2 ^ 53 /\ (-1074 < e -> 2 ^ 52 <= Zpos m).
Proof.
  unfold bounded, canonical_mantissa, fexp, emin, prec, emax.
  intros H. apply andb_prop in H as [H _]. apply Z.eqb_eq in H.
  pose proof (digits2_pos_bounds m) as [Hlo Hhi].
  set (d := Zpos (digits2_pos m)) in *.
  assert (0 < d) by (unfold d; lia).
  split; [lia|]. split.
  - assert (d <= 53) by lia.
    apply Z.lt_le_trans with (2 ^ d); [done|]. apply Z.pow_le_mono_r; lia.
  - intros He. assert (d = 53) as Hd by lia. rewrite Hd in Hlo. exact Hlo.
Qed.

Lemma canonical_lt (m1 m2 : positive) (e1 e2 : Z) :
  bounded prec emax m1 e1 = true -> bounded prec emax m2 e2 = true ->
  e1 < e2 -> Zpos m1 < Zpos m2 * 2 ^ (e2 - e1).
Proof.
  intros H1 H2 He.
  apply bounded_canonical in H1 as (Hmin1 & Hhi1 & _).
  apply bounded_canonical in H2 as (_ & _ & Hlo2).
  specialize (Hlo2 ltac:(lia)).
  assert (2 ^ 1 <= 2 ^ (e2 - e1)) by (apply Z.pow_le_mono_r; lia).
  change (2 ^ 1) with 2 in *. change (2 ^ 53) with (2 * 2 ^ 52) in Hhi1. nia.
Qed.

Lemma shr_1_nonneg mrs : 0 <= shr_m mrs -> 0 <= shr_m (shr_1 mrs).
Proof. destruct mrs as [[|[p|p|]|p] r s]; cbn; lia. Qed.

Lemma iter_pos_shr_1_nonneg (n : positive) mrs :
  0 <= shr_m mrs -> 0 <= shr_m (SpecFloat.iter_pos shr_1 n mrs).
Proof.
  revert mrs. induction n as [n IH|n IH|]; intros mrs H; cbn.
  - apply IH, IH. by apply shr_1_nonneg.
  - by apply IH, IH.
  - by apply shr_1_nonneg.
Qed.

Lemma shr_nonneg mrs e n : 0 <= shr_m mrs -> 0 <= shr_m (fst (shr mrs e n)).
Proof.
  intros H. unfold shr. destruct n; cbn [fst]; try done.
  by apply iter_pos_shr_1_nonneg.
Qed.

Lemma shr_fexp_nonneg m e l :
  0 <= m -> 0 <= shr_m (fst (shr_fexp prec emax m e l)).
Proof.
  intros H. unfold shr_fexp. apply shr_nonneg. by destruct l as [|[]].
Qed.

Lemma round_nearest_even_nonneg m l : 0 <= m -> 0 <= round_nearest_even m l.
Proof.
  intros H. unfold round_nearest_even. destruct l as [|[]]; try done; [|lia].
  destruct (Z.even m); lia.
Qed.

Lemma binary_round_aux_signed s m e l :
  0 <= m -> sf_signed s (binary_round_aux prec emax s m e l).
Proof.
  intros H. unfold binary_round_aux.
  pose proof (shr_fexp_nonneg m e l H) as H1.
  destruct (shr_fexp prec emax m e l) as [mrs' e'] eqn:E1. cbn [fst] in H1.
  pose proof (shr_fexp_nonneg
                (round_nearest_even (shr_m mrs') (loc_of_shr_record mrs')) e' loc_Exact
                (round_nearest_even_nonneg _ _ H1)) as H2.
  destruct (shr_fexp prec emax _ e' loc_Exact) as [mrs'' e''] eqn:E2. cbn [fst] in H2.
  destruct (shr_m mrs'') as [|p|p]; [done| |lia].
  by destruct (e'' <=? emax - prec)%Z.
Qed.

Lemma binary_round_signed s m e : sf_signed s (binary_round prec emax s m e).
Proof.
  unfold binary_round. destruct (shl_align m e _) as [mz ez].
  by apply binary_round_aux_signed.
Qed.

Lemma binary_normalize_signed m e :
  match m with
  | Z0 => binary_normalize prec emax m e false = S754_zero false
  | Zpos _ => sf_signed false (binary_normalize prec emax m e false)
  | Zneg _ => sf_signed true (binary_normalize prec emax m e false)
  end.
Proof. destruct m; cbn [binary_normalize]; [done|apply binary_round_signed..]. Qed.

Lemma SFcompare_finite sx mx ex sy my ey :
  bounded prec emax mx ex = true -> bounded prec emax my ey = true ->
  SFcompare (S754_finite sx mx ex) (S754_finite sy my ey) =
  Some (aligned sx mx ex (Z.min ex ey) ?= aligned sy my ey (Z.min ex ey)).
Proof.
  intros Hx Hy. unfold aligned.
  rewrite !shl_align_fst by lia.
  set (X := Zpos mx * 2 ^ (ex - Z.min ex ey)).
  set (Y := Zpos my * 2 ^ (ey - Z.min ex ey)).
  assert (0 < X) by (unfold X; apply Z.mul_pos_pos; [lia | apply Z.pow_pos_nonneg; lia]).
  assert (0 < Y) by (unfold Y; apply Z.mul_pos_pos; [lia | apply Z.pow_pos_nonneg; lia]).
  assert (match ex ?= ey with
          | Eq => Pos.compare_cont Eq mx my | Lt => Lt | Gt => Gt end = (X ?= Y)) as Hc.
  { destruct (Z.compare_spec ex ey) as [He|He|He].
    - subst ey. unfold X, Y. rewrite Z.min_id, Z.sub_diag, !Z.mul_1_r. done.
    - symmetry. apply Z.compare_lt_iff. unfold X, Y.
      rewrite Z.min_l, Z.sub_diag, Z.mul_1_r by lia. by apply canonical_lt.
    - symmetry. apply Z.compare_gt_iff. unfold X, Y.
      rewrite Z.min_r, Z.sub_diag, Z.mul_1_r by lia. by apply canonical_lt. }
  cbn [SFcompare cond_Zopp]. f_equal. destruct sx, sy; cbn [cond_Zopp].
  - rewrite Z.compare_opp, (Z.compare_antisym X Y), <- Hc.
    by destruct (ex ?= ey).
  - symmetry. apply Z.compare_lt_iff. lia.
  - symmetry. apply Z.compare_gt_iff. lia.
  - done.
Qed.

Lemma sf_signed_false_ge x :
  sf_signed false x -> SFleb (S754_zero false) x = true /\ SFltb x (S754_zero false) = false.
Proof. destruct x as [s|s| |s m e]; cbn; intros H; try done; by subst. Qed.

Lemma sf_signed_true_nlt x : sf_signed true x -> SFleb (S754_zero false) x = true -> x = S754_zero true.
Proof. destruct x as [s|s| |s m e]; cbn; intros H; try done; by subst. Qed.

(** [x - y < 0] gives [x < y] *)
Lemma SFsub_neg_lt x y :
  valid_binary x = true -> valid_binary y = true ->
  SFltb (SFsub prec emax x y) (S754_zero false) = true -> SFltb x y = true.
Proof.
  intros Hx Hy.
  destruct x as [sx|sx| |sx mx ex], y as [sy|sy| |sy my ey];
    try (by destruct sx, sy); try (by destruct sx); try (by destruct sy); try done.
  cbn [SFsub valid_binary] in *. unfold SFltb at 2. rewrite SFcompare_finite by done.
  fold (aligned sx mx ex (Z.min ex ey)). fold (aligned sy my ey (Z.min ex ey)).
  set (X := aligned sx mx ex _). set (Y := aligned sy my ey _).
  pose proof (binary_normalize_signed (X - Y) (Z.min ex ey)) as Hs.
  destruct (X - Y) as [|p|p] eqn:E.
  - by rewrite Hs.
  - apply sf_signed_false_ge in Hs as [_ ->]. done.
  - intros _. assert (X < Y) as Hlt by lia. apply Z.compare_lt_iff in Hlt. by rewrite Hlt.
Qed.

(** [x >= y] in the sense of the guard gives [0 <= x - y] *)
Lemma SFsub_nonneg x y :
  valid_binary x = true -> valid_binary y = true ->
  SFltb x y = false -> x <> S754_nan ->
  match y with S754_zero _ | S754_finite _ _ _ => True | _ => False end ->
  SFleb (S754_zero false) (SFsub prec emax x y) = true.
Proof.
  intros Hx Hy.
  destruct x as [sx|sx| |sx mx ex], y as [sy|sy| |sy my ey];
    try (by destruct sx, sy); try (by destruct sx); try (by destruct sy); try done.
  cbn [SFsub valid_binary] in *. unfold SFltb. rewrite SFcompare_finite by done.
  fold (aligned sx mx ex (Z.min ex ey)). fold (aligned sy my ey (Z.min ex ey)).
  set (X := aligned sx mx ex _). set (Y := aligned sy my ey _).
  pose proof (binary_normalize_signed (X - Y) (Z.min ex ey)) as Hs.
  intros Hc _ _.
  destruct (X - Y) as [|p|p] eqn:E.
  - by rewrite Hs.
  - by apply sf_signed_false_ge in Hs as [-> _].
  - assert (X < Y) as Hlt by lia. apply Z.compare_lt_iff in Hlt. by rewrite Hlt in Hc.
Qed.

(** the sum of two numbers that are not below zero is not below zero *)
Lemma SFadd_nonneg x y :
  SFleb (S754_zero false) x = true -> SFleb (S754_zero false) y = true ->
  SFleb (S754_zero false) (SFadd prec emax x y) = true.
Proof.
  destruct x as [sx|sx| |sx mx ex], y as [sy|sy| |sy my ey];
    try (by destruct sx, sy); try (by destruct sx); try (by destruct sy); try done.
  destruct sx, sy; try done. intros _ _. cbn [SFadd cond_Zopp].
  set (ez := Z.min ex ey).
  pose proof (binary_normalize_signed
                (Zpos (fst (shl_align mx ex ez)) + Zpos (fst (shl_align my ey ez))) ez) as Hs.
  cbn in Hs. by apply sf_signed_false_ge in Hs as [-> _].
Qed.

Lemma SFcompare_antisym x y :
  SFcompare y x = CompOpp <$> SFcompare x y.
Proof.
  destruct x as [sx|sx| |sx mx ex], y as [sy|sy| |sy my ey];
    try (by destruct sx, sy); try (by destruct sx); try (by destruct sy); try done.
  cbn. f_equal. destruct sx, sy; try done.
  - rewrite (Z.compare_antisym ex ey). destruct (ex ?= ey); cbn; try done.
    by rewrite (Pos.compare_cont_antisym mx my Eq).
  - rewrite (Z.compare_antisym ex ey). destruct (ex ?= ey); cbn; try done.
    by rewrite (Pos.compare_cont_antisym mx my Eq).
Qed.

Lemma SFleb_not_ltb x y : SFleb x y = true -> SFltb y x = false.
Proof.
  unfold SFleb, SFltb. rewrite (SFcompare_antisym x y).
  by destruct (SFcompare x y) as [[]|].
Qed.

Lemma SFcompare_refl x : x <> S754_nan -> SFcompare x x = Some Eq.
Proof.
  destruct x as [s|s| |s m e]; try done; intros _; cbn; try by destruct s.
  rewrite Z.compare_refl.
  assert (Pos.compare_cont Eq m m = Eq) as -> by apply Pos.compare_refl.
  by destruct s.
Qed.

(** ** binary64 numbers *)

Lemma Prim2SF_zero : Prim2SF 0%float = S754_zero false.
Proof. reflexivity. Qed.

Lemma Prim2SF_infinity : Prim2SF infinity = S754_infinity false.
Proof. reflexivity. Qed.

Lemma Prim2SF_neg_infinity : Prim2SF neg_infinity = S754_infinity true.
Proof. reflexivity. Qed.

Lemma is_nan_false (x : float) : is_nan x = false <-> Prim2SF x <> S754_nan.
Proof.
  unfold is_nan. rewrite FloatAxioms.eqb_spec, negb_false_iff. unfold SFeqb. split.
  - intros H E. rewrite E in H. done.
  - intros H. by rewrite SFcompare_refl.
Qed.

Lemma float_sub_neg_lt (x y : float) :
  (x - y <? 0)%float = true -> (x <? y)%float = true.
Proof.
  rewrite !ltb_spec, sub_spec, Prim2SF_zero.
  apply SFsub_neg_lt; apply Prim2SF_valid.
Qed.

Lemma float_leb_not_nan (x y : float) : (x <=? y)%float = true -> is_nan y = false.
Proof.
  rewrite leb_spec. intros H. apply is_nan_false. intros E. rewrite E in H.
  unfold SFleb in H. by destruct (Prim2SF x).
Qed.

Lemma float_leb_not_ltb (x y : float) : (x <=? y)%float = true -> (y <? x)%float = false.
Proof. rewrite leb_spec, ltb_spec. apply SFleb_not_ltb. Qed.

Lemma float_add_nonneg (x y : float) :
  (0 <=? x)%float = true -> (0 <=? y)%float = true -> (0 <=? x + y)%float = true.
Proof. rewrite !leb_spec, add_spec, Prim2SF_zero. apply SFadd_nonneg. Qed.

Lemma finite_spec (x : float) :
  finite x = true ->
  match Prim2SF x with S754_zero _ | S754_finite _ _ _ => True | _ => False end.
Proof.
  unfold finite. rewrite andb_true_iff, !ltb_spec, Prim2SF_infinity, Prim2SF_neg_infinity.
  intros [H1 H2]. destruct (Prim2SF x) as [s|s| |s m e]; try done. by destruct s.
Qed.

Lemma float_sub_nonneg (x y : float) :
  (x <? y)%float = false -> is_nan x = false -> finite y = true ->
  (0 <=? x - y)%float = true.
Proof.
  rewrite ltb_spec, leb_spec, sub_spec, Prim2SF_zero, is_nan_false.
  intros Hlt Hx Hy. apply SFsub_nonneg; try apply Prim2SF_valid; try done.
  by apply finite_spec.
Qed.

Local Open Scope string_scope.

(** ** Stored numbers *)

Lemma py_eq_stored_as (col : option float) (v : float) :
  py_eq col (Some v) = true → stored_as col v.
Proof. by destruct col. Qed.

Lemma sqlite_real_stored_as (v : float) : stored_as (sqlite_real (Some v)) v.
Proof.
  cbn. destruct (is_nan v) eqn:E; cbn; [done|].
  unfold is_nan in E. by apply negb_false_iff in E.
Qed.

Lemma sqlite_real_not_nan (v : float) : is_nan v = false → sqlite_real (Some v) = Some v.
Proof. intros H. cbn. by rewrite H. Qed.

Lemma SFeqb_leb_zero (w v : spec_float) :
  SFeqb w v = true → SFleb (S754_zero false) v = true → SFleb (S754_zero false) w = true.
Proof.
  destruct w as [s|s| |s m e], v as [s'|s'| |s' m' e']; cbn; try done;
    destruct s, s'; cbn; intros H1 H2; done.
Qed.

Lemma stored_as_Some_leb (col : option float) (v : float) :
  stored_as col v → (0 <=? v)%float = true →
  ∃ b, col = Some b ∧ (0 <=? b)%float = true.
Proof.
  intros Hs Hv. destruct col as [w|]; cbn in Hs.
  - exists w. split; [done|]. revert Hs Hv.
    rewrite FloatAxioms.eqb_spec, !leb_spec, Prim2SF_zero. apply SFeqb_leb_zero.
  - apply float_leb_not_nan in Hv. congruence.
Qed.

(** ** Rows and the flush *)

Lemma same_values_columns (r0 r1 : AccountDB.t) :
  AccountDB.same_values r0 r1 = true →
  py_eq (AccountDB.balance r0) (AccountDB.balance r1) = true ∧
  AccountDB.owner r0 = AccountDB.owner r1 ∧
  AccountDB.created_at r0 = AccountDB.created_at r1 ∧
  AccountDB.deleted_at r0 = AccountDB.deleted_at r1.
Proof.
  unfold AccountDB.same_values. rewrite !andb_true_iff, !bool_decide_eq_true. tauto.
Qed.

Lemma write_row_balance now r0 r v :
  AccountDB.balance r = Some v → stored_as (AccountDB.balance (write_row now r0 r)) v.
Proof.
  intros Hv. unfold write_row. destruct (AccountDB.same_values r0 r) eqn:E.
  - apply same_values_columns in E as [E _]. rewrite Hv in E. by apply py_eq_stored_as.
  - cbn [AccountDB.balance]. rewrite Hv.
    destruct (py_eq (AccountDB.balance r0) (Some v)) eqn:P;
      [by apply py_eq_stored_as | apply sqlite_real_stored_as].
Qed.

Lemma write_row_columns now r0 r :
  AccountDB.owner (write_row now r0 r) = AccountDB.owner r ∧
  AccountDB.created_at (write_row now r0 r) = AccountDB.created_at r ∧
  AccountDB.deleted_at (write_row now r0 r) = AccountDB.deleted_at r.
Proof.
  unfold write_row. destruct (AccountDB.same_values r0 r) eqn:E; [|done].
  apply same_values_columns in E. tauto.
Qed.

Lemma lookup_flush_accounts now (old : gmap Z AccountDB.t) dirty (new : gmap Z AccountDB.t) k :
  flush_accounts now old dirty new !! k = flush_account now old dirty k <$> new !! k.
Proof.
  unfold flush_accounts. rewrite map_lookup_imap. by destruct (new !! k).
Qed.

(** A row the session did not assign to is left as it was. *)
Lemma lookup_flush_accounts_same now (old : gmap Z AccountDB.t) dirty
    (new : gmap Z AccountDB.t) k :
  new !! k = old !! k → k ∉ dirty → flush_accounts now old dirty new !! k = old !! k.
Proof.
  intros H Hk. rewrite lookup_flush_accounts, H.
  destruct (old !! k) as [r|] eqn:E; [|done]. cbn [fmap option_fmap option_map]. unfold flush_account.
  by rewrite E, bool_decide_eq_false_2.
Qed.

Lemma lookup_flush_accounts_dirty now (old : gmap Z AccountDB.t) dirty
    (new : gmap Z AccountDB.t) k r0 r :
  old !! k = Some r0 → new !! k = Some r → k ∈ dirty →
  flush_accounts now old dirty new !! k = Some (write_row now r0 r).
Proof.
  intros H0 H Hk. rewrite lookup_flush_accounts, H. cbn [fmap option_fmap option_map]. unfold flush_account.
  by rewrite H0, bool_decide_eq_true_2.
Qed.

Lemma flush_accounts_same now (m : gmap Z AccountDB.t) : flush_accounts now m ∅ m = m.
Proof. apply map_eq. intros k. by apply lookup_flush_accounts_same. Qed.

Lemma flush_accounts_alter now (m : gmap Z AccountDB.t) (dirty : gset Z) k f r :
  m !! k = Some r → k ∈ dirty → (∀ j, j ∈ dirty → j = k) →
  flush_accounts now m dirty (alter f k m) = <[k := write_row now r (f r)]> m.
Proof.
  intros H Hk Hd. apply map_eq. intros j. rewrite lookup_insert. case_decide.
  - subst j. apply lookup_flush_accounts_dirty; [done| |done].
    by rewrite lookup_alter_eq, H.
  - apply lookup_flush_accounts_same; [by rewrite lookup_alter_ne|].
    intros Hj. apply Hd in Hj. congruence.
Qed.

Lemma flush_accounts_delete now (m : gmap Z AccountDB.t) k :
  flush_accounts now m ∅ (delete k m) = delete k m.
Proof.
  apply map_eq. intros j. rewrite lookup_flush_accounts, lookup_delete. case_decide.
  - done.
  - destruct (m !! j) as [r|] eqn:E; [|done]. cbn [fmap option_fmap option_map]. unfold flush_account. by rewrite E.
Qed.

Lemma flush_accounts_insert_fresh now (m : gmap Z AccountDB.t) k r :
  m !! k = None → flush_accounts now m ∅ (<[k := r]> m) = <[k := AccountDB.stored r]> m.
Proof.
  intros H. apply map_eq. intros j. rewrite lookup_flush_accounts, !lookup_insert.
  case_decide.
  - subst j. cbn [fmap option_fmap option_map]. unfold flush_account. by rewrite H.
  - destruct (m !! j) as [r0|] eqn:E; [|done]. cbn [fmap option_fmap option_map]. unfold flush_account. by rewrite E.
Qed.

Lemma lookup_flush_transactions (old new : gmap Z TransactionDB.t) k :
  flush_transactions old new !! k = flush_transaction old k <$> new !! k.
Proof.
  unfold flush_transactions. rewrite map_lookup_imap. by destruct (new !! k).
Qed.

Lemma flush_transactions_same (m : gmap Z TransactionDB.t) : flush_transactions m m = m.
Proof.
  apply map_eq. intros k. rewrite lookup_flush_transactions.
  destruct (m !! k) as [r|] eqn:E; [|done]. cbn [fmap option_fmap option_map]. unfold flush_transaction. by rewrite E.
Qed.

Lemma flush_transactions_alter (m : gmap Z TransactionDB.t) k f :
  flush_transactions m (alter f k m) = alter f k m.
Proof.
  apply map_eq. intros j. rewrite lookup_flush_transactions.
  destruct (alter f k m !! j) as [r|] eqn:E; [|done]. cbn [fmap option_fmap option_map]. unfold flush_transaction.
  assert (is_Some (m !! j)) as [r0 ->]; [|done].
  apply (lookup_alter_is_Some f m k j). by rewrite E.
Qed.

Lemma flush_transactions_insert_fresh (m : gmap Z TransactionDB.t) k r :
  m !! k = None → flush_transactions m (<[k := r]> m) = <[k := TransactionDB.stored r]> m.
Proof.
  intros H. apply map_eq. intros j. rewrite lookup_flush_transactions, !lookup_insert.
  case_decide.
  - subst j. cbn [fmap option_fmap option_map]. unfold flush_transaction. by rewrite H.
  - destruct (m !! j) as [r0|] eqn:E; [|done]. cbn [fmap option_fmap option_map]. unfold flush_transaction. by rewrite E.
Qed.

Lemma inserts_bind_same (m : gmap Z TransactionDB.t) : inserts_bind m m = true.
Proof.
  unfold inserts_bind. apply bool_decide_eq_true_2. intros k r Hk. left. by rewrite Hk.
Qed.

Lemma inserts_bind_alter (m : gmap Z TransactionDB.t) k f :
  inserts_bind m (alter f k m) = true.
Proof.
  unfold inserts_bind. apply bool_decide_eq_true_2. intros j r Hj. left.
  apply (lookup_alter_is_Some f m k j). by rewrite Hj.
Qed.

Lemma inserts_bind_insert_fresh (m : gmap Z TransactionDB.t) k r :
  m !! k = None →
  inserts_bind m (<[k := r]> m) = sqlite_int (TransactionDB.account_id r).
Proof.
  intros H. unfold inserts_bind.
  destruct (sqlite_int (TransactionDB.account_id r)) eqn:E.
  - apply bool_decide_eq_true_2. intros j rj. rewrite lookup_insert. case_decide.
    + intros [= <-]. by right.
    + intros Hj. left. by rewrite Hj.
  - apply bool_decide_eq_false_2. intros Hall.
    destruct (Hall k r) as [[? Hk]|Hk]; [apply lookup_insert_eq|congruence..].
Qed.

(** ** Fresh keys *)

Lemma max_key_ge {A : Type} (m : gmap Z A) k x : m !! k = Some x → k ≤ max_key m.
Proof.
  unfold max_key. revert k x.
  apply (map_fold_weak_ind (λ acc (m : gmap Z A), ∀ k x, m !! k = Some x → k ≤ acc)).
  - intros k x. by rewrite lookup_empty.
  - intros i y m' acc Hi IH k x. rewrite lookup_insert. case_decide.
    + intros _. subst. lia.
    + intros Hk. specialize (IH k x Hk). lia.
Qed.

Lemma fresh_key_fresh {A : Type} (m : gmap Z A) : m !! fresh_key m = None.
Proof.
  destruct (m !! fresh_key m) as [x|] eqn:E; [|done].
  apply max_key_ge in E. unfold fresh_key in E. lia.
Qed.

(** ** What each handler does to the store *)

Lemma route_try_block now req : route now req = try_except (try_block now req) internal_error.
Proof. by destruct req. Qed.

Lemma active_account_Some db account_id r :
  active_account db account_id = Some r ↔
  sqlite_int account_id = true ∧
  accounts db !! account_id = Some r ∧ AccountDB.deleted_at r = None.
Proof.
  unfold active_account. destruct (sqlite_int account_id); [|by intuition].
  destruct (accounts db !! account_id) as [r0|]; [|by intuition].
  destruct (AccountDB.deleted_at r0) eqn:E; split.
  - done.
  - intros (_ & [= ->] & D). congruence.
  - by intros [= <-].
  - by intros (_ & [= <-] & _).
Qed.

(** Right after a commit the session holds what the store holds, and a
    refresh changes nothing. *)
Lemma refresh_account_committed ref db md :
  refresh_account ref (mkSession db db md) = (inr (), mkSession db db md).
Proof.
  unfold refresh_account. cbn [committed pending].
  destruct (accounts db !! ref) as [r|] eqn:E; [|done].
  rewrite (insert_id _ _ _ E). by destruct db.
Qed.

Lemma refresh_transaction_committed ref db md :
  refresh_transaction ref (mkSession db db md) = (inr (), mkSession db db md).
Proof.
  unfold refresh_transaction. cbn [committed pending].
  destruct (transactions db !! ref) as [r|] eqn:E; [|done].
  rewrite (insert_id _ _ _ E). by destruct db.
Qed.

(** A commit of a session that touched accounts only. *)
Lemma commit_accounts now db (a : gmap Z AccountDB.t) md :
  commit now (mkSession db (mkDatabase a (transactions db)) md) =
  let db' := mkDatabase (flush_accounts now (accounts db) md a) (transactions db) in
  (inr (), mkSession db' db' ∅).
Proof.
  unfold commit. cbn [committed pending modified accounts transactions].
  by rewrite inserts_bind_same, flush_transactions_same.
Qed.

(** The query for an account, in terms of [active_account]. *)
Lemma query_account_first_active account_id db md (p : Database) :
  accounts p = accounts db →
  query_account_first account_id (mkSession db p md) =
  match active_account db account_id with
  | Some _ => (inr (Some account_id), mkSession db p md)
  | None => if sqlite_int account_id
            then (inr None, mkSession db p md)
            else (inl int_too_large, mkSession db p md)
  end.
Proof.
  intros Hp. unfold query_account_first, active_account. cbn [pending]. rewrite Hp.
  destruct (sqlite_int account_id); [|done].
  destruct (accounts db !! account_id) as [r|]; [|done].
  by destruct (AccountDB.deleted_at r).
Qed.

Lemma serve_get_accounts now db :
  serve now GetAccounts db =
  (inr (BAccounts (map_to_list
                     (filter (λ kr, AccountDB.deleted_at kr.2 = None) (accounts db)))),
   db).
Proof. by run_handler. Qed.

Lemma serve_create_account now a db :
  serve now (CreateAccount a) db =
  let k := fresh_key (accounts db) in
  (inr (BMessageAccount "Account created successfully" (k, account_row a)),
   mkDatabase (<[k := account_row a]> (accounts db)) (transactions db)).
Proof.
  run_handler. rewrite commit_accounts. cbv zeta. cbn [fst snd accounts transactions].
  rewrite refresh_account_committed.
  cbn [committed pending modified accounts transactions].
  rewrite flush_accounts_insert_fresh by apply fresh_key_fresh.
  by rewrite lookup_total_insert_eq.
Qed.

Lemma serve_get_account account_id now db :
  serve now (GetAccount account_id) db =
  match active_account db account_id with
  | None => (inl (reraised (no_account account_id)), db)
  | Some r => (inr (BAccount (account_id, r)), db)
  end.
Proof.
  run_handler. unfold active_account, no_account.
  destruct (sqlite_int account_id); [|done].
  destruct (accounts db !! account_id) as [r|] eqn:E; [|done].
  destruct (AccountDB.deleted_at r) eqn:D; [done|].
  cbn [committed pending modified accounts transactions].
  by rewrite (lookup_total_correct _ _ _ E).
Qed.

(** Closes the branches of a handler in which the account is not found. *)
Ltac find_account db account_id r E D :=
  unfold active_account, no_account;
  destruct (sqlite_int account_id); [|done];
  destruct (accounts db !! account_id) as [r|] eqn:E; [|done];
  destruct (AccountDB.deleted_at r) eqn:D; [done|];
  cbn [committed pending modified accounts transactions].

Lemma serve_update_account now account_id a db :
  serve now (UpdateAccount account_id a) db =
  match active_account db account_id with
  | None => (inl (reraised (no_account account_id)), db)
  | Some r =>
      let r' := write_row now r
                  (AccountDB.set_balance (Some (AccountCreate.balance a))
                     (AccountDB.set_owner (AccountCreate.owner a) r)) in
      (inr (BMessageAccount "Account updated successfully" (account_id, r')),
       mkDatabase (<[account_id := r']> (accounts db)) (transactions db))
  end.
Proof.
  run_handler. find_account db account_id r E D.
  rewrite commit_accounts. cbv zeta. cbn [fst snd accounts transactions].
  rewrite refresh_account_committed.
  cbn [committed pending modified accounts transactions].
  rewrite alter_alter_eq.
  rewrite (flush_accounts_alter _ _ _ _ _ _ E) by (set_unfold; intuition).
  by rewrite lookup_total_insert_eq.
Qed.

Lemma serve_delete_account now account_id db :
  serve now (DeleteAccount account_id) db =
  match active_account db account_id with
  | None => (inl (reraised (no_account account_id)), db)
  | Some r =>
      (inr (BMessage "Account deleted successfully"),
       mkDatabase (delete account_id (accounts db)) (transactions db))
  end.
Proof.
  run_handler. find_account db account_id r E D.
  rewrite commit_accounts. cbv zeta. cbn [fst snd committed accounts transactions].
  by rewrite flush_accounts_delete.
Qed.

Lemma serve_deposit now account_id amount db :
  serve now (Deposit account_id amount) db =
  match active_account db account_id with
  | None => (inl (reraised (no_account account_id)), db)
  | Some r =>
      match AccountDB.balance r with
      | None => (inl (reraised none_iadd), db)
      | Some b =>
          let r' := write_row now r (AccountDB.set_balance (Some (b + amount)%float) r) in
          (inr (BMessageAccount "Deposit successful" (account_id, r')),
           mkDatabase (<[account_id := r']> (accounts db)) (transactions db))
      end
  end.
Proof.
  run_handler. find_account db account_id r E D.
  rewrite (lookup_total_correct _ _ _ E).
  destruct (AccountDB.balance r) as [b|]; [|done].
  cbn [committed pending modified accounts transactions].
  rewrite commit_accounts. cbv zeta. cbn [fst snd accounts transactions].
  rewrite refresh_account_committed.
  cbn [committed pending modified accounts transactions].
  rewrite (flush_accounts_alter _ _ _ _ _ _ E) by (set_unfold; intuition).
  by rewrite lookup_total_insert_eq.
Qed.

Lemma serve_withdraw now account_id amount db :
  serve now (Withdraw account_id amount) db =
  match active_account db account_id with
  | None => (inl (reraised (no_account account_id)), db)
  | Some r =>
      match AccountDB.balance r with
      | None => (inl (reraised none_lt), db)
      | Some b =>
          if (b <? amount)%float then (inl (reraised insufficient_funds), db)
          else
            let r' := write_row now r (AccountDB.set_balance (Some (b - amount)%float) r) in
            (inr (BMessageAccount "Withdrawal successful" (account_id, r')),
             mkDatabase (<[account_id := r']> (accounts db)) (transactions db))
      end
  end.
Proof.
  run_handler. find_account db account_id r E D.
  rewrite (lookup_total_correct _ _ _ E).
  destruct (AccountDB.balance r) as [b|] eqn:B; [|done].
  cbn [committed pending modified accounts transactions].
  destruct (b <? amount)%float; [done|].
  cbn [committed pending modified accounts transactions].
  rewrite (lookup_total_correct _ _ _ E), B.
  cbn [committed pending modified accounts transactions].
  rewrite commit_accounts. cbv zeta. cbn [fst snd accounts transactions].
  rewrite refresh_account_committed.
  cbn [committed pending modified accounts transactions].
  rewrite (flush_accounts_alter _ _ _ _ _ _ E) by (set_unfold; intuition).
  by rewrite lookup_total_insert_eq.
Qed.

Lemma serve_get_transactions now account_id db :
  serve now (GetTransactions account_id) db =
  if sqlite_int account_id
  then (inr (BTransactions
               (map_to_list
                  (filter (λ kr, TransactionDB.account_id kr.2 = account_id
                                 ∧ TransactionDB.deleted_at kr.2 = None)
                          (transactions db)))),
        db)
  else (inl (reraised int_too_large), db).
Proof. run_handler. by destruct (sqlite_int account_id). Qed.

Lemma serve_create_transaction now account_id t db :
  serve now (CreateTransaction account_id t) db =
  if sqlite_int account_id
  then
    let k := fresh_key (transactions db) in
    (inr (BMessageTransaction "Transaction created successfully"
            (k, transaction_row account_id t)),
     mkDatabase (accounts db) (<[k := transaction_row account_id t]> (transactions db)))
  else (inl (reraised int_too_large), db).
Proof.
  run_handler. unfold commit.
  cbn [committed pending modified accounts transactions].
  rewrite inserts_bind_insert_fresh by apply fresh_key_fresh.
  cbn [TransactionDB.account_id].
  destruct (sqlite_int account_id); [|done].
  rewrite refresh_transaction_committed.
  cbn [committed pending modified accounts transactions].
  rewrite flush_accounts_same, flush_transactions_insert_fresh by apply fresh_key_fresh.
  by rewrite lookup_total_insert_eq.
Qed.

Lemma serve_delete_transaction now account_id transaction_id db :
  serve now (DeleteTransaction account_id transaction_id) db =
  if sqlite_int transaction_id
  then
    match transactions db !! transaction_id with
    | Some r =>
        match TransactionDB.deleted_at r with
        | None =>
            (inr (BMessage "Transaction deleted successfully"),
             mkDatabase (accounts db)
               (<[transaction_id := TransactionDB.set_deleted_at (Some now) r]>
                  (transactions db)))
        | Some _ => (inl (reraised transaction_not_found), db)
        end
    | None => (inl (reraised transaction_not_found), db)
    end
  else (inl (reraised int_too_large), db).
Proof.
  run_handler. destruct (sqlite_int transaction_id); [|done].
  destruct (transactions db !! transaction_id) as [r|] eqn:E; [|done].
  destruct (TransactionDB.deleted_at r) eqn:D; [done|].
  cbn [committed pending modified accounts transactions].
  unfold commit. cbn [committed pending modified accounts transactions].
  rewrite inserts_bind_alter, flush_accounts_same, flush_transactions_alter.
  cbn [fst snd committed]. f_equal. f_equal.
  apply map_eq. intros j. rewrite lookup_insert, lookup_alter. case_decide.
  - subst j. by rewrite E.
  - done.
Qed.

(** ** The two updates of a transfer *)

Lemma flush_accounts_alter2 now (m : gmap Z AccountDB.t) (dirty : gset Z) src tgt g f rs rt :
  src ≠ tgt → m !! src = Some rs → m !! tgt = Some rt →
  src ∈ dirty → tgt ∈ dirty → (∀ j, j ∈ dirty → j = src ∨ j = tgt) →
  flush_accounts now m dirty (alter f tgt (alter g src m)) =
  <[tgt := write_row now rt (f rt)]> (<[src := write_row now rs (g rs)]> m).
Proof.
  intros Hne Hs Ht Hds Hdt Hd. apply map_eq. intros j.
  destruct (decide (j = tgt)) as [->|Hjt].
  - rewrite lookup_insert_eq. apply lookup_flush_accounts_dirty; [done| |done].
    by rewrite lookup_alter_eq, lookup_alter_ne, Ht.
  - rewrite lookup_insert_ne by done.
    destruct (decide (j = src)) as [->|Hjs].
    + rewrite lookup_insert_eq. apply lookup_flush_accounts_dirty; [done| |done].
      by rewrite lookup_alter_ne, lookup_alter_eq, Hs.
    + rewrite lookup_insert_ne by done.
      apply lookup_flush_accounts_same; [by rewrite !lookup_alter_ne|].
      intros Hj. apply Hd in Hj as [?|?]; congruence.
Qed.

Lemma serve_transfer now src tgt amount db :
  serve now (Transfer src tgt amount) db =
  if sqlite_int src && sqlite_int tgt then
    match active_account db src, active_account db tgt with
    | Some rs, Some rt =>
        match AccountDB.balance rs with
        | None => (inl (reraised none_lt), db)
        | Some a =>
            if (a <? amount)%float then (inl (reraised insufficient_funds), db)
            else if decide (src = tgt) then
              let r' := write_row now rs
                          (AccountDB.set_balance (Some ((a - amount) + amount)%float) rs) in
              (inr (BMessageTransfer "Transfer successful" (src, r') (tgt, r')),
               mkDatabase (<[src := r']> (accounts db)) (transactions db))
            else
              match AccountDB.balance rt with
              | None => (inl (reraised none_iadd), db)
              | Some b =>
                  let rs' := write_row now rs
                               (AccountDB.set_balance (Some (a - amount)%float) rs) in
                  let rt' := write_row now rt
                               (AccountDB.set_balance (Some (b + amount)%float) rt) in
                  (inr (BMessageTransfer "Transfer successful" (src, rs') (tgt, rt')),
                   mkDatabase (<[tgt := rt']> (<[src := rs']> (accounts db)))
                     (transactions db))
              end
        end
    | _, _ => (inl (reraised account_not_found), db)
    end
  else (inl (reraised int_too_large), db).
Proof.
  run_handler. unfold active_account.
  destruct (sqlite_int src); [|done].
  cbn [committed pending modified accounts transactions andb].
  destruct (sqlite_int tgt).
  2: { destruct (accounts db !! src) as [r|]; [|done]. by destruct (AccountDB.deleted_at r). }
  destruct (accounts db !! src) as [rs|] eqn:Es.
  2: { cbn [committed pending modified accounts transactions].
       destruct (accounts db !! tgt) as [r|]; [|done]. by destruct (AccountDB.deleted_at r). }
  destruct (AccountDB.deleted_at rs) eqn:Ds.
  { cbn [committed pending modified accounts transactions].
    destruct (accounts db !! tgt) as [r|]; [|done]. by destruct (AccountDB.deleted_at r). }
  cbn [committed pending modified accounts transactions].
  destruct (accounts db !! tgt) as [rt|] eqn:Et; [|done].
  destruct (AccountDB.deleted_at rt) eqn:Dt; [done|].
  cbn [committed pending modified accounts transactions].
  rewrite (lookup_total_correct _ _ _ Es).
  destruct (AccountDB.balance rs) as [a|] eqn:Bs; [|done].
  cbn [committed pending modified accounts transactions].
  destruct (a <? amount)%float; [done|].
  cbn [committed pending modified accounts transactions].
  rewrite (lookup_total_correct _ _ _ Es), Bs.
  cbn [committed pending modified accounts transactions].
  destruct (decide (src = tgt)) as [<-|Hne].
  - rewrite (lookup_total_correct _ src (AccountDB.set_balance (Some (a - amount)%float) rs))
      by (by rewrite lookup_alter_eq, Es).
    cbn [AccountDB.balance AccountDB.set_balance].
    cbn [committed pending modified accounts transactions].
    rewrite commit_accounts. cbv zeta. cbn [fst snd accounts transactions].
    rewrite !refresh_account_committed.
    cbn [committed pending modified accounts transactions].
    rewrite alter_alter_eq.
    rewrite (flush_accounts_alter _ _ _ _ _ _ Es) by (set_unfold; intuition).
    by rewrite lookup_total_insert_eq.
  - rewrite (lookup_total_correct _ tgt rt) by (by rewrite lookup_alter_ne).
    destruct (AccountDB.balance rt) as [b|] eqn:Bt; [|done].
    cbn [committed pending modified accounts transactions].
    rewrite commit_accounts. cbv zeta. cbn [fst snd accounts transactions].
    rewrite !refresh_account_committed.
    cbn [committed pending modified accounts transactions].
    rewrite (flush_accounts_alter2 _ _ _ _ _ _ _ _ _ Hne Es Et) by (set_unfold; intuition).
    by rewrite lookup_total_insert_eq, lookup_total_insert_ne, lookup_total_insert_eq.
Qed.

(** ** Reading balances *)

Lemma active_account_lookup (m : gmap Z AccountDB.t) t k r :
  sqlite_int k = true → m !! k = Some r → AccountDB.deleted_at r = None →
  active_account (mkDatabase m t) k = Some r.
Proof. intros. by apply active_account_Some. Qed.

Lemma active_account_transactions db t k :
  active_account (mkDatabase (accounts db) t) k = active_account db k.
Proof. done. Qed.

Lemma balance_of_Some db k b :
  balance_of db k = Some b ↔
  ∃ r, active_account db k = Some r ∧ AccountDB.balance r = Some b.
Proof.
  unfold balance_of. destruct (active_account db k) as [r|]; cbn.
  - split; [eauto | by intros (? & [= <-] & ?)].
  - split; [done | by intros (? & ? & _)].
Qed.

Lemma balance_of_None db k :
  balance_of db k = None ↔
  active_account db k = None ∨
  ∃ r, active_account db k = Some r ∧ AccountDB.balance r = None.
Proof.
  unfold balance_of. destruct (active_account db k) as [r|]; cbn.
  - split; [eauto | by intros [|(? & [= <-] & ?)]].
  - split; auto.
Qed.

(** The balance of an active row after its changed state is written. *)
Lemma balance_holds_written now db (m : gmap Z AccountDB.t) t k r r1 v :
  active_account db k = Some r →
  AccountDB.deleted_at r1 = None → AccountDB.balance r1 = Some v →
  m !! k = Some (write_row now r r1) →
  balance_holds (mkDatabase m t) k v.
Proof.
  intros Hr Hd Hv Hm. apply active_account_Some in Hr as (Hk & _ & _).
  exists (write_row now r r1). split; [|by apply write_row_balance].
  apply active_account_lookup; [done..|].
  destruct (write_row_columns now r r1) as (_ & _ & ->). done.
Qed.

(** ** I1 under the requests *)

Lemma I1_insert db k r t :
  I1 db →
  (AccountDB.deleted_at r = None →
   ∃ b, AccountDB.balance r = Some b ∧ (0 <=? b)%float = true) →
  I1 (mkDatabase (<[k := r]> (accounts db)) t).
Proof.
  intros HI Hr j rj Hj. apply active_account_Some in Hj as (Hi & Hj & Dj).
  cbn [accounts] in Hj. rewrite lookup_insert in Hj. case_decide.
  - injection Hj as <-. by apply Hr.
  - apply (HI j). by apply active_account_Some.
Qed.

Lemma I1_delete db k t : I1 db → I1 (mkDatabase (delete k (accounts db)) t).
Proof.
  intros HI j rj Hj. apply active_account_Some in Hj as (Hi & Hj & Dj).
  cbn [accounts] in Hj. rewrite lookup_delete in Hj. case_decide; [done|].
  apply (HI j). by apply active_account_Some.
Qed.

Lemma I1_transactions db t : I1 db → I1 (mkDatabase (accounts db) t).
Proof. intros HI j rj Hj. by apply (HI j). Qed.

Lemma I1_empty : I1 empty_db.
Proof. intros j r Hj. apply active_account_Some in Hj as (_ & Hj & _). done. Qed.

(** The balance a changed row is written with is not below zero when the
    number assigned is not. *)
Lemma write_row_nonneg now r0 r v :
  AccountDB.balance r = Some v → (0 <=? v)%float = true →
  ∃ b, AccountDB.balance (write_row now r0 r) = Some b ∧ (0 <=? b)%float = true.
Proof.
  intros Hv Hle. apply (stored_as_Some_leb _ v); [|done]. by apply write_row_balance.
Qed.

(** One request keeps I1 when its number is admissible. *)
Lemma I1_serve now req db : nonneg_input req → I1 db → I1 (serve now req db).2.
Proof.
  intros Hin HI. destruct req as [|a|i|i a|i|i x|i x|i j x|i|i t|i j]; cbn [nonneg_input] in Hin.
  - by rewrite serve_get_accounts.
  - rewrite serve_create_account. cbv zeta. cbn [snd]. apply I1_insert; [done|].
    intros _. exists (AccountCreate.balance a). split; [|done].
    unfold account_row, AccountDB.stored. cbn [AccountDB.balance AccountDB.set_balance].
    apply sqlite_real_not_nan. by apply float_leb_not_nan in Hin.
  - rewrite serve_get_account. by destruct (active_account db i).
  - rewrite serve_update_account. destruct (active_account db i) as [r|]; [|done].
    cbv zeta. cbn [snd]. apply I1_insert; [done|]. intros _.
    by apply (write_row_nonneg _ _ _ (AccountCreate.balance a)).
  - rewrite serve_delete_account. destruct (active_account db i) as [r|]; [|done].
    cbn [snd]. by apply I1_delete.
  - rewrite serve_deposit. destruct (active_account db i) as [r|] eqn:E; [|done].
    destruct (HI i r E) as (b & Hb & Hle). rewrite Hb.
    cbv zeta. cbn [snd]. apply I1_insert; [done|]. intros _.
    apply (write_row_nonneg _ _ _ (b + x)%float); [done|]. by apply float_add_nonneg.
  - rewrite serve_withdraw. destruct (active_account db i) as [r|] eqn:E; [|done].
    destruct (HI i r E) as (b & Hb & Hle). rewrite Hb.
    destruct (b <? x)%float eqn:L; [done|].
    cbv zeta. cbn [snd]. apply I1_insert; [done|]. intros _.
    apply (write_row_nonneg _ _ _ (b - x)%float); [done|].
    apply float_sub_nonneg; [done| |done]. by apply float_leb_not_nan in Hle.
  - destruct Hin as [Hx Hfin]. rewrite serve_transfer.
    destruct (sqlite_int i && sqlite_int j); [|done].
    destruct (active_account db i) as [ri|] eqn:Ei; [|done].
    destruct (active_account db j) as [rj|] eqn:Ej; [|done].
    destruct (HI i ri Ei) as (a & Ha & Hale). rewrite Ha.
    destruct (HI j rj Ej) as (b & Hb & Hble).
    destruct (a <? x)%float eqn:L; [done|].
    assert ((0 <=? a - x)%float = true) as Hsub.
    { apply float_sub_nonneg; [done| |done]. by apply float_leb_not_nan in Hale. }
    case_decide as Heq.
    + cbv zeta. cbn [snd]. apply I1_insert; [done|]. intros _.
      apply (write_row_nonneg _ _ _ ((a - x) + x)%float); [done|].
      by apply float_add_nonneg.
    + rewrite Hb. cbv zeta. cbn [snd].
      apply (I1_insert (mkDatabase _ (transactions db))).
      * apply I1_insert; [done|]. intros _.
        by apply (write_row_nonneg _ _ _ (a - x)%float).
      * intros _. apply (write_row_nonneg _ _ _ (b + x)%float); [done|].
        by apply float_add_nonneg.
  - rewrite serve_get_transactions. by destruct (sqlite_int i).
  - rewrite serve_create_transaction. destruct (sqlite_int i); [|done].
    cbv zeta. cbn [snd]. by apply I1_transactions.
  - rewrite serve_delete_transaction. destruct (sqlite_int j); [|done].
    destruct (transactions db !! j) as [r|]; [|done].
    destruct (TransactionDB.deleted_at r); [done|]. by apply I1_transactions.
Qed.

(** ** Failures *)

(** A request that fails leaves the store as it was. *)
Lemma serve_failure_unchanged now req db e db' :
  serve now req db = (inl e, db') → db' = db.
Proof.
  destruct req as [|a|i|i a|i|i x|i x|i j x|i|i t|i j].
  - by rewrite serve_get_accounts.
  - by rewrite serve_create_account.
  - rewrite serve_get_account. destruct (active_account db i); [done|]. by intros [= _ <-].
  - rewrite serve_update_account. destruct (active_account db i); [done|]. by intros [= _ <-].
  - rewrite serve_delete_account. destruct (active_account db i); [done|]. by intros [= _ <-].
  - rewrite serve_deposit. destruct (active_account db i) as [r|]; [|by intros [= _ <-]].
    destruct (AccountDB.balance r); [done|by intros [= _ <-]].
  - rewrite serve_withdraw. destruct (active_account db i) as [r|]; [|by intros [= _ <-]].
    destruct (AccountDB.balance r) as [b|]; [|by intros [= _ <-]].
    destruct (b <? x)%float; [by intros [= _ <-]|done].
  - rewrite serve_transfer. destruct (sqlite_int i && sqlite_int j); [|by intros [= _ <-]].
    destruct (active_account db i) as [ri|]; [|by intros [= _ <-]].
    destruct (active_account db j) as [rj|]; [|by intros [= _ <-]].
    destruct (AccountDB.balance ri) as [a|]; [|by intros [= _ <-]].
    destruct (a <? x)%float; [by intros [= _ <-]|].
    case_decide; [done|].
    destruct (AccountDB.balance rj) as [b|]; [done|by intros [= _ <-]].
  - rewrite serve_get_transactions. destruct (sqlite_int i); [done|by intros [= _ <-]].
  - rewrite serve_create_transaction. destruct (sqlite_int i); [done|by intros [= _ <-]].
  - rewrite serve_delete_transaction. destruct (sqlite_int j); [|by intros [= _ <-]].
    destruct (transactions db !! j) as [r|]; [|by intros [= _ <-]].
    destruct (TransactionDB.deleted_at r); [by intros [= _ <-]|done].
Qed.

(** What the [try] block raises reaches the caller under status 500. *)
Lemma serve_try_block_raises now req db e s :
  try_block now req (SessionLocal db) = (inl e, s) →
  serve now req db = (inl (reraised e), db).
Proof.
  intros H.
  assert (serve now req db = (inl (reraised e), committed s)) as E.
  { unfold serve, run. rewrite route_try_block. unfold try_except. by rewrite H. }
  rewrite E. f_equal. by apply serve_failure_unchanged in E.
Qed.

(** Whatever the request, a response that is not a success is a 500 that
    carries the exception of the [try] block. *)
Lemma every_failure_is_reraised now req db e :
  (serve now req db).1 = inl e → ∃ e0, e = reraised e0.
Proof.
  unfold serve, run. rewrite route_try_block. unfold try_except, internal_error, raise.
  destruct (try_block now req (SessionLocal db)) as [[e0|b] s]; cbn; [|done].
  intros [= <-]. by eexists.
Qed.

Lemma every_failure_is_500 now req db e :
  (serve now req db).1 = inl e → status_code_of e = Some 500.
Proof. intros H. by apply every_failure_is_reraised in H as [e0 ->]. Qed.

Lemma reraised_InternalError e : InternalError (inl (reraised e)).
Proof. by eexists. Qed.

Lemma reraised_not_NotFound e : ¬ NotFound (inl (reraised e)).
Proof. by intros [d [=]]. Qed.

Lemma reraised_not_InsufficientFunds e : ¬ InsufficientFunds (inl (reraised e)).
Proof. by intros [d [=]]. Qed.

Lemma reraised_not_ValidationError e : ¬ ValidationError (inl (reraised e)).
Proof. by intros [[d [=]]|[d [=]]]. Qed.

Lemma succeeds_not_ValidationError (r : Response) : succeeds r → ¬ ValidationError r.
Proof. by intros [b ->] [[d [=]]|[d [=]]]. Qed.

Lemma fails_not_succeeds (r : Response) : fails r → ¬ succeeds r.
Proof. by intros [e ->] [b [=]]. Qed.

(** The [try] blocks that raise 404, and those that raise 400. *)
Lemma try_block_account_not_found now req db account_id :
  sqlite_int account_id = true →
  active_account db account_id = None →
  (req = GetAccount account_id ∨ (∃ a, req = UpdateAccount account_id a)
   ∨ req = DeleteAccount account_id ∨ (∃ x, req = Deposit account_id x)
   ∨ (∃ x, req = Withdraw account_id x)
   ∨ (∃ j x, sqlite_int j = true ∧ req = Transfer account_id j x)
   ∨ (∃ i x, sqlite_int i = true ∧ req = Transfer i account_id x)) →
  try_block now req (SessionLocal db) = (inl account_not_found, SessionLocal db).
Proof.
  unfold active_account. intros Hi Hn Hreq. rewrite Hi in Hn.
  assert (match accounts db !! account_id with
          | Some r => match AccountDB.deleted_at r with
                      | Some _ => None | None => Some account_id end
          | None => None end = None) as Hq.
  { destruct (accounts db !! account_id) as [r|]; [|done].
    by destruct (AccountDB.deleted_at r). }
  destruct Hreq as [->|[[a ->]|[->|[[x ->]|[[x ->]|[(j & x & Hj & ->)|(i & x & Hj & ->)]]]]]];
    unfold try_block; run_handler; rewrite ?Hi, ?Hj;
    cbn [committed pending modified accounts transactions]; rewrite ?Hq; try done.
  by destruct (accounts db !! i) as [r|]; [destruct (AccountDB.deleted_at r)|].
Qed.

Lemma try_block_insufficient_funds now req db account_id b amount :
  balance_of db account_id = Some b →
  (b <? amount)%float = true →
  (req = Withdraw account_id amount
   ∨ (∃ j, is_Some (active_account db j) ∧ req = Transfer account_id j amount)) →
  try_block now req (SessionLocal db) = (inl insufficient_funds, SessionLocal db).
Proof.
  intros Hb Hlt Hreq. apply balance_of_Some in Hb as (r & Hr & Hb).
  apply active_account_Some in Hr as (Hi & E & D).
  destruct Hreq as [->|(j & [rj Hj] & ->)]; unfold try_block; run_handler.
  - rewrite Hi. cbn [committed pending modified accounts transactions].
    by rewrite E, D, (lookup_total_correct _ _ _ E), Hb, Hlt.
  - apply active_account_Some in Hj as (Hj & Ej & Dj).
    rewrite Hi. cbn [committed pending modified accounts transactions].
    rewrite Hj. cbn [committed pending modified accounts transactions].
    by rewrite E, D, Ej, Dj, (lookup_total_correct _ _ _ E), Hb, Hlt.
Qed.

(** ** Transfers *)

(** A transfer that succeeds found two active accounts with a balance, the
    first of them not below the amount. *)
Lemma transfer_succeeds_inv now src tgt x db :
  succeeds (serve now (Transfer src tgt x) db).1 →
  ∃ a b, balance_of db src = Some a ∧ balance_of db tgt = Some b ∧
         (a <? x)%float = false.
Proof.
  rewrite serve_transfer. intros [body Hok].
  destruct (sqlite_int src && sqlite_int tgt); [|done].
  destruct (active_account db src) as [rs|] eqn:Es; [|done].
  destruct (active_account db tgt) as [rt|] eqn:Et; [|done].
  destruct (AccountDB.balance rs) as [a|] eqn:Ba; [|done].
  destruct (a <? x)%float eqn:L; [done|].
  unfold balance_of. rewrite Es, Et. cbn. rewrite Ba.
  case_decide as Heq.
  - subst tgt. assert (rt = rs) as -> by congruence. rewrite Ba. eauto.
  - destruct (AccountDB.balance rt) as [b|]; [eauto|done].
Qed.

(** A transfer between two active accounts with balances [a] and [b], the
    first not below the amount: the debit and the credit as the store keeps
    them. *)
Lemma transfer_balances now src tgt x db a b :
  balance_of db src = Some a → balance_of db tgt = Some b →
  (a <? x)%float = false →
  succeeds (serve now (Transfer src tgt x) db).1 ∧
  if decide (src = tgt)
  then balance_holds (serve now (Transfer src tgt x) db).2 src ((a - x) + x)
  else balance_holds (serve now (Transfer src tgt x) db).2 src (a - x) ∧
       balance_holds (serve now (Transfer src tgt x) db).2 tgt (b + x).
Proof.
  intros Ha Hb L.
  apply balance_of_Some in Ha as (rs & Hs & Ba).
  apply balance_of_Some in Hb as (rt & Ht & Bb).
  apply active_account_Some in Hs as Hs'. destruct Hs' as (Is & _ & Ds).
  apply active_account_Some in Ht as Ht'. destruct Ht' as (It & _ & Dt).
  rewrite serve_transfer, Is, It, Hs, Ht, Ba, L. cbn [andb].
  case_decide as Heq.
  - cbv zeta. cbn [fst snd]. split; [by eexists|].
    eapply (balance_holds_written now db _ _ src rs); [done| | |apply lookup_insert_eq];
      done.
  - rewrite Bb. cbv zeta. cbn [fst snd]. split; [by eexists|]. split.
    + eapply (balance_holds_written now db _ _ src rs); [done| | |]; [| |
        by rewrite lookup_insert_ne, lookup_insert_eq]; done.
    + eapply (balance_holds_written now db _ _ tgt rt); [done| | |apply lookup_insert_eq];
        done.
Qed.

(** A transfer that finds no source with a balance, no target with a
    balance, or a source below the amount, fails and changes nothing. *)
Lemma transfer_refused now src tgt x db :
  balance_of db src = None ∨ balance_of db tgt = None ∨
  (∃ a, balance_of db src = Some a ∧ (a <? x)%float = true) →
  fails (serve now (Transfer src tgt x) db).1 ∧
  (serve now (Transfer src tgt x) db).2 = db.
Proof.
  intros H.
  destruct (serve now (Transfer src tgt x) db) as [[e|body] db'] eqn:S; cbn [fst snd].
  { split; [by eexists|]. by apply serve_failure_unchanged in S. }
  exfalso.
  destruct (transfer_succeeds_inv now src tgt x db) as (a & b & Ha & Hb & L).
  { rewrite S. by eexists. }
  destruct H as [H|[H|(a' & H & L')]]; congruence.
Qed.

(** * The claims *)

(** ** C1: balances of active accounts are not negative *)

(** C1, as stated, fails: from the empty store, [create_account] with a
    balance of -5 commits an active account with a balance below 0. *)
Lemma negative_balance_reachable :
  ¬ (∀ reqs, I1 (serve_all reqs empty_db)).
Proof.
  intros H.
  destruct (H [(0, CreateAccount overdrawn_alice)] 1 (account_row overdrawn_alice))
    as (b & Hb & Hle); [reflexivity|].
  injection Hb as <-. vm_compute in Hle. discriminate.
Qed.

(** C1, amended.  When every active account has a balance of at least 0, it
    is still so after any sequence of requests in which the balances given to
    create and update and the amounts given to deposit and transfer are at
    least 0 and the amounts given to withdraw and transfer are finite. *)
Theorem nonneg_inputs_keep_I1 (reqs : list (Z * Request)) (db : Database) :
  Forall (λ nr, nonneg_input nr.2) reqs → I1 db → I1 (serve_all reqs db).
Proof.
  revert db. induction reqs as [|[now req] reqs IH]; intros db Hin HI; [done|].
  apply Forall_cons in Hin as [Hreq Hin]. cbn [serve_all].
  apply IH; [done|]. by apply I1_serve.
Qed.

Lemma nonneg_inputs_keep_I1_witness :
  I1 (serve_all [(0, CreateAccount (AccountCreate.mk "Alice" 100 0 0 None));
                 (1, Withdraw 1 150);
                 (2, Deposit 1 20);
                 (3, CreateAccount (AccountCreate.mk "Bob" 0 3 3 None));
                 (4, Transfer 1 2 70);
                 (5, Withdraw 2 (-3))] empty_db).
Proof.
  apply nonneg_inputs_keep_I1.
  - repeat constructor; vm_compute; reflexivity.
  - apply I1_empty.
Defined.

(** Without the bound on the amounts I1 is lost through NaN as well: a
    withdrawal of NaN passes the guard, since [balance < nan] is false, and
    the balance is stored as NULL. *)
Example withdraw_nan_scenario :
  succeeds (serve 1 (Withdraw 1 nan) alice_100).1 ∧
  (∃ r, active_account (serve 1 (Withdraw 1 nan) alice_100).2 1 = Some r ∧
        AccountDB.balance r = None) ∧
  ¬ I1 (serve 1 (Withdraw 1 nan) alice_100).2.
Proof.
  split; [by eexists|]. split; [by eexists|].
  intros H. by destruct (H 1 _ eq_refl) as (b & [=] & _).
Qed.

(** ** C2: what a transfer moves *)

(** C2, as stated, fails: [transfer(A, B, 1)] with 1 on A and 2^53 on B
    succeeds and takes 1 from A, but B holds 2^53 afterwards as before,
    since 2^53 + 1 is not a binary64 number and rounds to 2^53. *)
Lemma transfer_rounding_loses :
  ¬ (∀ now src tgt x db a b a' b',
       src ≠ tgt →
       succeeds (serve now (Transfer src tgt x) db).1 →
       balance_of db src = Some a → balance_of db tgt = Some b →
       balance_of (serve now (Transfer src tgt x) db).2 src = Some a' →
       balance_of (serve now (Transfer src tgt x) db).2 tgt = Some b' →
       (a - a' =? x)%float = true ∧ (b' - b =? x)%float = true ∧
       (a' + b' =? a + b)%float = true).
Proof.
  intros H.
  destruct (H 2 1 2 1%float a1_b2p53 1%float 9007199254740992%float
              0%float 9007199254740992%float) as (_ & Hb & _);
    [done | by eexists | reflexivity.. |].
  vm_compute in Hb. discriminate.
Qed.

Example transfer_2p53_scenario :
  balance_of a1_b2p53 1 = Some 1%float ∧
  balance_of a1_b2p53 2 = Some 9007199254740992%float ∧
  succeeds (serve 2 (Transfer 1 2 1) a1_b2p53).1 ∧
  balance_of (serve 2 (Transfer 1 2 1) a1_b2p53).2 1 = Some 0%float ∧
  balance_of (serve 2 (Transfer 1 2 1) a1_b2p53).2 2 = Some 9007199254740992%float.
Proof. repeat split; try reflexivity. by eexists. Qed.

(** With 10 on A and 0.1 on B, [transfer(A, B, 0.7)] leaves
    9.3000000000000007 and 0.79999999999999993: A holds less than 0.7 less,
    and the two sums differ. *)
Example transfer_07_scenario :
  succeeds (serve 2 (Transfer 1 2 0.7) a10_b01).1 ∧
  balance_of (serve 2 (Transfer 1 2 0.7) a10_b01).2 1 = Some 9.3000000000000007%float ∧
  balance_of (serve 2 (Transfer 1 2 0.7) a10_b01).2 2 = Some 0.79999999999999993%float ∧
  (10 - 9.3000000000000007 =? 0.7)%float = false ∧
  (9.3000000000000007 + 0.79999999999999993 =? 10 + 0.1)%float = false.
Proof. repeat split; try reflexivity. by eexists. Qed.

(** The scenario [create A balance=50, create B balance=0, transfer(A,B,50)]. *)
Example transfer_50_scenario :
  succeeds (serve 2 (Transfer 1 2 50) a50_b0).1 ∧
  balance_of (serve 2 (Transfer 1 2 50) a50_b0).2 1 = Some 0%float ∧
  balance_of (serve 2 (Transfer 1 2 50) a50_b0).2 2 = Some 50%float.
Proof. repeat split; try reflexivity. by eexists. Qed.

(** C2, amended.  A successful transfer found both accounts active, with
    balances [a] and [b] and [a] not below [x]; between two accounts the
    source then holds the binary64 difference [a - x] and the target the
    binary64 sum [b + x], as the store keeps them. *)
Theorem transfer_moves_rounded now src tgt x db :
  src ≠ tgt →
  succeeds (serve now (Transfer src tgt x) db).1 →
  ∃ a b,
    balance_of db src = Some a ∧ balance_of db tgt = Some b ∧
    (a <? x)%float = false ∧
    balance_holds (serve now (Transfer src tgt x) db).2 src (a - x) ∧
    balance_holds (serve now (Transfer src tgt x) db).2 tgt (b + x).
Proof.
  intros Hne Hok.
  destruct (transfer_succeeds_inv _ _ _ _ _ Hok) as (a & b & Ha & Hb & L).
  exists a, b. do 3 (split; [done|]).
  destruct (transfer_balances now src tgt x db a b Ha Hb L) as [_ H].
  by rewrite decide_False in H.
Qed.

Lemma transfer_moves_rounded_witness :
  1 ≠ 2 ∧
  succeeds (serve 2 (Transfer 1 2 0.7) a10_b01).1 ∧
  ∃ a b,
    balance_of a10_b01 1 = Some a ∧ balance_of a10_b01 2 = Some b ∧
    (a <? 0.7)%float = false ∧
    balance_holds (serve 2 (Transfer 1 2 0.7) a10_b01).2 1 (a - 0.7) ∧
    balance_holds (serve 2 (Transfer 1 2 0.7) a10_b01).2 2 (b + 0.7).
Proof.
  assert (succeeds (serve 2 (Transfer 1 2 0.7) a10_b01).1) as Hok
    by (eexists; vm_compute; reflexivity).
  split; [lia|]. split; [exact Hok|].
  apply (transfer_moves_rounded 2 1 2 0.7%float a10_b01); [lia | exact Hok].
Defined.

(** ** C3: a withdrawal beyond the balance *)

(** C3.  What the code does when [b - amount < 0]: the [try] block raises
    400 "Insufficient funds", the [except] clause of [withdraw] catches it,
    and the caller receives 500; the store, and so the balance, is
    unchanged.  The caller does not observe InsufficientFunds. *)
Theorem withdraw_beyond_balance now account_id amount db b :
  balance_of db account_id = Some b →
  (b - amount <? 0)%float = true →
  (serve now (Withdraw account_id amount) db).1 = inl (reraised insufficient_funds) ∧
  ¬ InsufficientFunds (serve now (Withdraw account_id amount) db).1 ∧
  (serve now (Withdraw account_id amount) db).2 = db ∧
  balance_of (serve now (Withdraw account_id amount) db).2 account_id = Some b.
Proof.
  intros Hb Hlt. apply balance_of_Some in Hb as Hr. destruct Hr as (r & Hr & Br).
  rewrite serve_withdraw, Hr, Br, (float_sub_neg_lt _ _ Hlt).
  cbn [fst snd]. split; [done|]. split; [apply reraised_not_InsufficientFunds|done].
Qed.

Lemma withdraw_beyond_balance_witness :
  balance_of alice_100 1 = Some 100%float ∧ (100 - 150 <? 0)%float = true ∧
  (serve 1 (Withdraw 1 150) alice_100).1 = inl (reraised insufficient_funds) ∧
  ¬ InsufficientFunds (serve 1 (Withdraw 1 150) alice_100).1 ∧
  (serve 1 (Withdraw 1 150) alice_100).2 = alice_100 ∧
  balance_of (serve 1 (Withdraw 1 150) alice_100).2 1 = Some 100%float.
Proof.
  split; [reflexivity|]. split; [reflexivity|].
  apply (withdraw_beyond_balance 1 1 150 alice_100 100); reflexivity.
Defined.

(** ** C4: deleting an account *)

(** The sibling path: [delete_transaction] keeps the row and sets its
    [deleted_at] to the time of the request. *)
Lemma delete_transaction_soft now account_id transaction_id db r :
  sqlite_int transaction_id = true →
  transactions db !! transaction_id = Some r →
  TransactionDB.deleted_at r = None →
  succeeds (serve now (DeleteTransaction account_id transaction_id) db).1 ∧
  transactions (serve now (DeleteTransaction account_id transaction_id) db).2
    !! transaction_id = Some (TransactionDB.set_deleted_at (Some now) r).
Proof.
  intros I E D. rewrite serve_delete_transaction, I, E, D. cbn.
  split; [by eexists|]. by rewrite lookup_insert_eq.
Qed.

(** C4.  What [delete_account] does: for an active account the row is
    removed from the table [accounts], no [deleted_at] is set and no row of
    that key is retained; for an absent or deleted account the caller
    receives 500 (the 404 raised in the [try] block, caught and raised
    again, or for an id beyond 64 bits the refusal to bind it), not
    NotFound. *)
Theorem delete_account_removes_row now account_id db :
  match active_account db account_id with
  | Some _ =>
      succeeds (serve now (DeleteAccount account_id) db).1 ∧
      accounts (serve now (DeleteAccount account_id) db).2 = delete account_id (accounts db) ∧
      accounts (serve now (DeleteAccount account_id) db).2 !! account_id = None ∧
      transactions (serve now (DeleteAccount account_id) db).2 = transactions db
  | None =>
      (serve now (DeleteAccount account_id) db).1
        = inl (reraised (if sqlite_int account_id
                         then account_not_found else int_too_large)) ∧
      ¬ NotFound (serve now (DeleteAccount account_id) db).1 ∧
      (serve now (DeleteAccount account_id) db).2 = db
  end.
Proof.
  rewrite serve_delete_account. destruct (active_account db account_id) as [r|]; cbn.
  - split; [by eexists|]. split; [done|]. split; [apply lookup_delete_eq|done].
  - split; [done|]. split; [apply reraised_not_NotFound|done].
Qed.

(** [delete_account] at the account of Alice: the table is empty afterwards. *)
Example delete_account_alice :
  accounts alice_100 !! 1 = Some (AccountDB.mk (Some 100%float) "Alice" 0 0 None) ∧
  succeeds (serve 1 (DeleteAccount 1) alice_100).1 ∧
  accounts (serve 1 (DeleteAccount 1) alice_100).2 = ∅.
Proof. split; [reflexivity|]. split; [by eexists|]. reflexivity. Qed.

(** [delete_account] at an account that is not there: 500 around the 404. *)
Example delete_account_absent :
  (serve 1 (DeleteAccount 7) alice_100).1 = inl (reraised account_not_found) ∧
  (serve 1 (DeleteAccount 7) alice_100).2 = alice_100.
Proof. split; reflexivity. Qed.

(** ** C5: after an account is deleted *)

(** C5.  What the code does after a successful [delete_account]: the id is
    absent from the list of accounts; [get_account] and a second
    [delete_account] raise 404 in their [try] blocks and the caller receives
    500 both times, not NotFound. *)
Theorem after_delete_account now now1 now2 now3 account_id db r :
  active_account db account_id = Some r →
  succeeds (serve now (DeleteAccount account_id) db).1 ∧
  (serve now1 (GetAccount account_id) (serve now (DeleteAccount account_id) db).2).1
    = inl (reraised account_not_found) ∧
  ¬ NotFound
      (serve now1 (GetAccount account_id) (serve now (DeleteAccount account_id) db).2).1 ∧
  (∃ l, (serve now2 GetAccounts (serve now (DeleteAccount account_id) db).2).1
          = inr (BAccounts l) ∧ account_id ∉ l.*1) ∧
  (serve now3 (DeleteAccount account_id) (serve now (DeleteAccount account_id) db).2).1
    = inl (reraised account_not_found) ∧
  ¬ NotFound
      (serve now3 (DeleteAccount account_id) (serve now (DeleteAccount account_id) db).2).1.
Proof.
  intros Hr. rewrite (serve_delete_account now), Hr. cbn [fst snd].
  apply active_account_Some in Hr as (Hi & _ & _).
  set (db' := mkDatabase (delete account_id (accounts db)) (transactions db)).
  assert (active_account db' account_id = None) as Hgone.
  { unfold active_account, db'. cbn [accounts]. by rewrite Hi, lookup_delete_eq. }
  rewrite serve_get_account, serve_get_accounts, serve_delete_account, Hgone.
  unfold no_account. rewrite Hi. cbn [fst snd].
  split; [by eexists|]. split; [done|]. split; [apply reraised_not_NotFound|].
  split; [|split; [done|apply reraised_not_NotFound]].
  eexists. split; [done|].
  intros Hin. apply list_elem_of_fmap in Hin as ([k rk] & -> & Hin).
  apply elem_of_map_to_list, map_lookup_filter_Some in Hin as [Hin _].
  unfold db' in Hin. cbn [accounts fst] in Hin. by rewrite lookup_delete_eq in Hin.
Qed.

Lemma after_delete_account_witness :
  active_account alice_100 1 = Some (AccountDB.mk (Some 100%float) "Alice" 0 0 None) ∧
  succeeds (serve 1 (DeleteAccount 1) alice_100).1 ∧
  (serve 2 (GetAccount 1) (serve 1 (DeleteAccount 1) alice_100).2).1
    = inl (reraised account_not_found) ∧
  ¬ NotFound (serve 2 (GetAccount 1) (serve 1 (DeleteAccount 1) alice_100).2).1 ∧
  (∃ l, (serve 3 GetAccounts (serve 1 (DeleteAccount 1) alice_100).2).1
          = inr (BAccounts l) ∧ 1 ∉ l.*1) ∧
  (serve 4 (DeleteAccount 1) (serve 1 (DeleteAccount 1) alice_100).2).1
    = inl (reraised account_not_found) ∧
  ¬ NotFound (serve 4 (DeleteAccount 1) (serve 1 (DeleteAccount 1) alice_100).2).1.
Proof.
  split; [reflexivity|].
  apply (after_delete_account 1 2 3 4 1 alice_100
           (AccountDB.mk (Some 100%float) "Alice" 0 0 None)).
  reflexivity.
Defined.

(** ** C6: a deposit of an amount that is not positive *)

(** C6, as stated, fails: [deposit(A, -5)] on a balance of 10 succeeds, and
    the balance is 5 afterwards. *)
Lemma deposit_negative_accepted :
  ¬ (∀ now account_id amount db b,
       balance_of db account_id = Some b → (amount <=? 0)%float = true →
       ValidationError (serve now (Deposit account_id amount) db).1 ∧
       balance_of (serve now (Deposit account_id amount) db).2 account_id = Some b).
Proof.
  intros H.
  destruct (H 1 1 (-5)%float a_10 10%float) as [Hfail _]; [reflexivity..|].
  revert Hfail. apply succeeds_not_ValidationError. by eexists.
Qed.

Example deposit_negative_scenario :
  balance_of a_10 1 = Some 10%float ∧
  succeeds (serve 1 (Deposit 1 (-5)) a_10).1 ∧
  balance_of (serve 1 (Deposit 1 (-5)) a_10).2 1 = Some 5%float.
Proof. split; [reflexivity|]. split; [by eexists | reflexivity]. Qed.

(** C6, amended.  [deposit] does not look at the sign of the amount: on an
    active account with balance [b] a deposit of [amount <= 0] succeeds and
    the account holds the binary64 sum [b + amount], as the store keeps
    it. *)
Theorem deposit_not_validated now account_id amount db b :
  balance_of db account_id = Some b → (amount <=? 0)%float = true →
  succeeds (serve now (Deposit account_id amount) db).1 ∧
  balance_holds (serve now (Deposit account_id amount) db).2 account_id (b + amount).
Proof.
  intros Hb _. apply balance_of_Some in Hb as (r & Hr & Br).
  rewrite serve_deposit, Hr, Br. cbv zeta. cbn [fst snd]. split; [by eexists|].
  apply active_account_Some in Hr as Hr'. destruct Hr' as (_ & _ & D).
  eapply (balance_holds_written now db _ _ account_id r); [done| | |apply lookup_insert_eq];
    done.
Qed.

Lemma deposit_not_validated_witness :
  balance_of a_10 1 = Some 10%float ∧ (-5 <=? 0)%float = true ∧
  succeeds (serve 1 (Deposit 1 (-5)) a_10).1 ∧
  balance_holds (serve 1 (Deposit 1 (-5)) a_10).2 1 (10 + -5).
Proof.
  split; [reflexivity|]. split; [reflexivity|].
  apply (deposit_not_validated 1 1 (-5)%float a_10 10%float); reflexivity.
Defined.

(** ** C7: transfers of a non-positive amount, and to the same account *)

(** C7, as stated, fails: [transfer(A, B, -5)] with 10 on each account
    succeeds and leaves 15 on A and 5 on B. *)
Lemma transfer_negative_accepted :
  ¬ (∀ now src tgt amount db,
       (amount <=? 0)%float = true ∨ src = tgt →
       ValidationError (serve now (Transfer src tgt amount) db).1 ∧
       ∀ k, balance_of (serve now (Transfer src tgt amount) db).2 k = balance_of db k).
Proof.
  intros H.
  destruct (H 2 1 2 (-5)%float a10_b10) as [Hfail _]; [by left|].
  revert Hfail. apply succeeds_not_ValidationError. by eexists.
Qed.

Example transfer_negative_scenario :
  succeeds (serve 2 (Transfer 1 2 (-5)) a10_b10).1 ∧
  balance_of (serve 2 (Transfer 1 2 (-5)) a10_b10).2 1 = Some 15%float ∧
  balance_of (serve 2 (Transfer 1 2 (-5)) a10_b10).2 2 = Some 5%float.
Proof. split; [by eexists | split; reflexivity]. Qed.

(** C7, amended.  [transfer] checks neither the sign of the amount nor that
    the two ids differ.  With [amount <= 0] or [source_id = target_id] the
    caller never receives a 400 or 422.  When both accounts are active with
    balances [a] and [b] and [a] is not below the amount, the transfer
    succeeds: between distinct accounts the source holds [a - amount] and
    the target [b + amount], on one account the balance is
    [(a - amount) + amount].  Otherwise (a source below the amount, an
    account that is not active or has no balance) the transfer fails and the
    store is unchanged. *)
Theorem transfer_not_validated now src tgt amount db :
  (amount <=? 0)%float = true ∨ src = tgt →
  ¬ ValidationError (serve now (Transfer src tgt amount) db).1 ∧
  match balance_of db src, balance_of db tgt with
  | Some a, Some b =>
      if (a <? amount)%float
      then fails (serve now (Transfer src tgt amount) db).1 ∧
           (serve now (Transfer src tgt amount) db).2 = db
      else succeeds (serve now (Transfer src tgt amount) db).1 ∧
           if decide (src = tgt)
           then balance_holds (serve now (Transfer src tgt amount) db).2 src
                  ((a - amount) + amount)
           else balance_holds (serve now (Transfer src tgt amount) db).2 src (a - amount) ∧
                balance_holds (serve now (Transfer src tgt amount) db).2 tgt (b + amount)
  | _, _ =>
      fails (serve now (Transfer src tgt amount) db).1 ∧
      (serve now (Transfer src tgt amount) db).2 = db
  end.
Proof.
  intros _. split.
  - destruct (serve now (Transfer src tgt amount) db).1 as [e|body] eqn:S.
    + destruct (every_failure_is_reraised _ _ _ _ S) as [e0 ->].
      apply reraised_not_ValidationError.
    + apply succeeds_not_ValidationError. by eexists.
  - destruct (balance_of db src) as [a|] eqn:Ha.
    2: { apply transfer_refused. by left. }
    destruct (balance_of db tgt) as [b|] eqn:Hb.
    2: { apply transfer_refused. right. by left. }
    destruct (a <? amount)%float eqn:L.
    + apply transfer_refused. right. right. eauto.
    + by apply transfer_balances.
Qed.

Lemma transfer_not_validated_witness :
  ((-5 <=? 0)%float = true ∨ 1 = 2) ∧
  ¬ ValidationError (serve 2 (Transfer 1 2 (-5)) a10_b10).1 ∧
  match balance_of a10_b10 1, balance_of a10_b10 2 with
  | Some a, Some b =>
      if (a <? -5)%float
      then fails (serve 2 (Transfer 1 2 (-5)) a10_b10).1 ∧
           (serve 2 (Transfer 1 2 (-5)) a10_b10).2 = a10_b10
      else succeeds (serve 2 (Transfer 1 2 (-5)) a10_b10).1 ∧
           if decide (1 = 2)
           then balance_holds (serve 2 (Transfer 1 2 (-5)) a10_b10).2 1 ((a - -5) + -5)
           else balance_holds (serve 2 (Transfer 1 2 (-5)) a10_b10).2 1 (a - -5) ∧
                balance_holds (serve 2 (Transfer 1 2 (-5)) a10_b10).2 2 (b + -5)
  | _, _ =>
      fails (serve 2 (Transfer 1 2 (-5)) a10_b10).1 ∧
      (serve 2 (Transfer 1 2 (-5)) a10_b10).2 = a10_b10
  end.
Proof.
  assert ((-5 <=? 0)%float = true ∨ 1 = 2) as Hin by (left; reflexivity).
  split; [exact Hin|].
  exact (transfer_not_validated 2 1 2 (-5)%float a10_b10 Hin).
Defined.

(** The guard on the balance is the one check there is: with 10 on A,
    [transfer(A, A, 20)] fails and A keeps its 10. *)
Example self_transfer_refused :
  fails (serve 1 (Transfer 1 1 20) a_10).1 ∧
  (serve 1 (Transfer 1 1 20) a_10).2 = a_10.
Proof. split; [by eexists | reflexivity]. Qed.

(** ** C8: the kind of a journal entry *)


Example bogus_kind_scenario :
  succeeds (serve 1 (CreateTransaction 1 bogus_entry) empty_db).1 ∧
  transactions (serve 1 (CreateTransaction 1 bogus_entry) empty_db).2 !! 1
    = Some (TransactionDB.mk 1 (Some 5%float) "bogus" 0 None).
Proof. split; [by eexists | reflexivity]. Qed.



(** An account id beyond 64 bits is refused when the row is written, and
    nothing is stored. *)
Example create_transaction_overflow :
  serve 1 (CreateTransaction 9223372036854775808 bogus_entry) empty_db
    = (inl (reraised int_too_large), empty_db).
Proof. reflexivity. Qed.

(** ** C9: the catch-all clause *)

(** C9.  In every handler, a 404 or 400 raised in the [try] block is caught
    by the [except Exception] clause of that handler and raised again under
    status 500 with [str(e)] as detail: the caller observes an internal
    error, neither NotFound nor InsufficientFunds, and the store is as it
    was. *)
Theorem caught_and_reraised now req db e s :
  try_block now req (SessionLocal db) = (inl e, s) →
  status_code_of e = Some 404 ∨ status_code_of e = Some 400 →
  serve now req db = (inl (HTTPException 500 (Str e)), db) ∧
  InternalError (serve now req db).1 ∧
  ¬ NotFound (serve now req db).1 ∧
  ¬ InsufficientFunds (serve now req db).1.
Proof.
  intros H _. rewrite (serve_try_block_raises _ _ _ _ _ H). cbn [fst].
  split; [done|]. split; [apply reraised_InternalError|].
  split; [apply reraised_not_NotFound | apply reraised_not_InsufficientFunds].
Qed.

Lemma caught_and_reraised_witness :
  try_block 1 (Withdraw 1 150) (SessionLocal alice_100)
    = (inl insufficient_funds, SessionLocal alice_100) ∧
  (status_code_of insufficient_funds = Some 404 ∨
   status_code_of insufficient_funds = Some 400) ∧
  serve 1 (Withdraw 1 150) alice_100
    = (inl (HTTPException 500 (Str insufficient_funds)), alice_100) ∧
  InternalError (serve 1 (Withdraw 1 150) alice_100).1 ∧
  ¬ NotFound (serve 1 (Withdraw 1 150) alice_100).1 ∧
  ¬ InsufficientFunds (serve 1 (Withdraw 1 150) alice_100).1.
Proof.
  split; [reflexivity|]. split; [right; reflexivity|].
  apply (caught_and_reraised 1 (Withdraw 1 150) alice_100 insufficient_funds
           (SessionLocal alice_100)); [reflexivity | right; reflexivity].
Defined.

(** The handlers of the claim on an account that is absent or deleted: each
    raises 404 in its [try] block and the caller receives 500. *)
Lemma not_found_reraised now db account_id :
  sqlite_int account_id = true →
  active_account db account_id = None →
  ∀ req,
    (req = GetAccount account_id ∨ (∃ a, req = UpdateAccount account_id a)
     ∨ req = DeleteAccount account_id ∨ (∃ x, req = Deposit account_id x)
     ∨ (∃ x, req = Withdraw account_id x)
     ∨ (∃ j x, sqlite_int j = true ∧ req = Transfer account_id j x)
     ∨ (∃ i x, sqlite_int i = true ∧ req = Transfer i account_id x)) →
    serve now req db = (inl (reraised account_not_found), db).
Proof.
  intros Hi Hn req Hreq. eapply serve_try_block_raises.
  by eapply try_block_account_not_found.
Qed.

(** [withdraw] and [transfer] on a balance below the amount: each raises 400
    in its [try] block and the caller receives 500. *)
Lemma insufficient_funds_reraised now db account_id b amount :
  balance_of db account_id = Some b →
  (b <? amount)%float = true →
  ∀ req,
    (req = Withdraw account_id amount
     ∨ (∃ j, is_Some (active_account db j) ∧ req = Transfer account_id j amount)) →
    serve now req db = (inl (reraised insufficient_funds), db).
Proof.
  intros Hr Hlt req Hreq. eapply serve_try_block_raises.
  by eapply try_block_insufficient_funds.
Qed.

(** ** C10: a transfer from an account to itself *)

(** C10, as stated, fails: with 0.11 on A, [transfer(A, A, 0.04)] succeeds
    and A holds 0.11000000000000001 afterwards, since the debit rounds to
    0.07 and the credit to the number next above 0.11. *)
Lemma self_transfer_rounding_changes :
  ¬ (∀ now account_id x db b,
       balance_of db account_id = Some b → (x <=? b)%float = true →
       succeeds (serve now (Transfer account_id account_id x) db).1 ∧
       balance_of (serve now (Transfer account_id account_id x) db).2 account_id = Some b).
Proof.
  intros H.
  destruct (H 1 1 0.04%float a_011 0.11%float) as [_ Hb]; [reflexivity..|].
  apply (f_equal (λ o, match o with Some v => (v =? 0.11)%float | None => false end))
    in Hb.
  vm_compute in Hb. discriminate.
Qed.

Example self_transfer_011_scenario :
  balance_of a_011 1 = Some 0.11%float ∧
  succeeds (serve 1 (Transfer 1 1 0.04) a_011).1 ∧
  balance_of (serve 1 (Transfer 1 1 0.04) a_011).2 1 = Some 0.11000000000000001%float ∧
  (0.11000000000000001 =? 0.11)%float = false.
Proof. repeat split; try reflexivity. by eexists. Qed.

(** On amounts the two operations represent exactly the balance comes back:
    with 100 on Alice, [transfer(A, A, 30)] leaves 100. *)
Example self_transfer_100_scenario :
  succeeds (serve 1 (Transfer 1 1 30) alice_100).1 ∧
  balance_of (serve 1 (Transfer 1 1 30) alice_100).2 1 = Some 100%float.
Proof. split; [by eexists | reflexivity]. Qed.

(** C10, amended.  A transfer from an active account with balance [b] to
    itself, of an amount [x] with [b >= x], succeeds: the debit and the
    credit are applied to the same object, one after the other, and the
    account holds the binary64 value [(b - x) + x], as the store keeps it. *)
Theorem self_transfer_rounds now account_id x db b :
  balance_of db account_id = Some b →
  (x <=? b)%float = true →
  succeeds (serve now (Transfer account_id account_id x) db).1 ∧
  balance_holds (serve now (Transfer account_id account_id x) db).2 account_id
    ((b - x) + x).
Proof.
  intros Hb Hle.
  destruct (transfer_balances now account_id account_id x db b b Hb Hb
              (float_leb_not_ltb _ _ Hle)) as [Hok H].
  by rewrite decide_True in H.
Qed.

Lemma self_transfer_rounds_witness :
  balance_of a_011 1 = Some 0.11%float ∧ (0.04 <=? 0.11)%float = true ∧
  succeeds (serve 1 (Transfer 1 1 0.04) a_011).1 ∧
  balance_holds (serve 1 (Transfer 1 1 0.04) a_011).2 1 ((0.11 - 0.04) + 0.04).
Proof.
  split; [reflexivity|]. split; [reflexivity|].
  apply (self_transfer_rounds 1 1 0.04%float a_011 0.11%float); reflexivity.
Defined.

(** * Further properties of the handlers *)

(** ** Listing *)

(** [get_accounts] never fails and changes nothing; it returns each active
    account once, and nothing else. *)
Theorem get_accounts_lists_active now db :
  ∃ l, serve now GetAccounts db = (inr (BAccounts l), db) ∧
       NoDup l.*1 ∧
       ∀ k r, (k, r) ∈ l ↔ accounts db !! k = Some r ∧ AccountDB.deleted_at r = None.
Proof.
  rewrite serve_get_accounts. eexists. split; [done|]. split.
  - apply NoDup_fst_map_to_list.
  - intros k r. by rewrite elem_of_map_to_list, map_lookup_filter_Some.
Qed.

(** [get_transactions] does not look for the account and changes nothing.
    For an account id within the 64 bits of the column it returns each entry
    of that account id that is not deleted once, and nothing else; an id
    beyond them cannot be bound to the query, and the caller receives 500. *)
Theorem get_transactions_lists_active now account_id db :
  if sqlite_int account_id
  then ∃ l, serve now (GetTransactions account_id) db = (inr (BTransactions l), db) ∧
            NoDup l.*1 ∧
            ∀ k r, (k, r) ∈ l ↔
                   transactions db !! k = Some r ∧
                   TransactionDB.account_id r = account_id ∧
                   TransactionDB.deleted_at r = None
  else serve now (GetTransactions account_id) db = (inl (reraised int_too_large), db).
Proof.
  rewrite serve_get_transactions. destruct (sqlite_int account_id); [|done].
  eexists. split; [done|]. split.
  - apply NoDup_fst_map_to_list.
  - intros k r. by rewrite elem_of_map_to_list, map_lookup_filter_Some.
Qed.

(** ** Creating accounts *)




(** An account created with a [deleted_at] is stored, but no handler finds
    it: [get_account] answers 500 (the 404 raised again) and [get_accounts]
    does not list it. *)
Theorem create_deleted_is_invisible now now1 now2 a d db k r :
  AccountCreate.deleted_at a = Some d →
  (serve now (CreateAccount a) db).1
    = inr (BMessageAccount "Account created successfully" (k, r)) →
  sqlite_int k = true →
  accounts (serve now (CreateAccount a) db).2 !! k = Some r ∧
  (serve now1 (GetAccount k) (serve now (CreateAccount a) db).2).1
    = inl (reraised account_not_found) ∧
  ∃ l, (serve now2 GetAccounts (serve now (CreateAccount a) db).2).1 = inr (BAccounts l) ∧
       k ∉ l.*1.
Proof.
  intros Hd. rewrite serve_create_account. cbv zeta. cbn [fst snd]. intros [= <- <-] Hi.
  set (k := fresh_key (accounts db)) in *.
  set (db' := mkDatabase _ _).
  assert (accounts db' !! k = Some (account_row a)) as Hk by apply lookup_insert_eq.
  assert (active_account db' k = None) as Hgone.
  { unfold active_account. rewrite Hi, Hk. cbn. by rewrite Hd. }
  split; [done|].
  rewrite serve_get_account, serve_get_accounts, Hgone. unfold no_account. rewrite Hi.
  cbn [fst].
  split; [done|]. eexists. split; [done|].
  intros Hin. apply list_elem_of_fmap in Hin as ([j rj] & -> & Hin).
  apply elem_of_map_to_list, map_lookup_filter_Some in Hin as [Hin Hact].
  cbn [fst snd] in *. rewrite Hk in Hin. injection Hin as <-.
  cbn in Hact. congruence.
Qed.

Lemma create_deleted_is_invisible_witness :
  AccountCreate.deleted_at ghost_account = Some 0 ∧
  (serve 0 (CreateAccount ghost_account) empty_db).1
    = inr (BMessageAccount "Account created successfully" (1, account_row ghost_account)) ∧
  sqlite_int 1 = true ∧
  accounts (serve 0 (CreateAccount ghost_account) empty_db).2 !! 1
    = Some (account_row ghost_account) ∧
  (serve 1 (GetAccount 1) (serve 0 (CreateAccount ghost_account) empty_db).2).1
    = inl (reraised account_not_found) ∧
  ∃ l, (serve 2 GetAccounts (serve 0 (CreateAccount ghost_account) empty_db).2).1
         = inr (BAccounts l) ∧ 1 ∉ l.*1.
Proof.
  split; [reflexivity|]. split; [reflexivity|]. split; [reflexivity|].
  apply (create_deleted_is_invisible 0 1 2 ghost_account 0 empty_db 1
           (account_row ghost_account)); reflexivity.
Defined.

(** ** Updating, depositing, withdrawing, transferring *)



(** [deposit] on an active account with balance [b] succeeds for every
    amount: the account then holds the binary64 sum [b + amount], as the
    store keeps it (NULL when the sum is NaN); the other accounts and the
    journal are untouched. *)
Theorem deposit_adds_amount now account_id amount db b :
  balance_of db account_id = Some b →
  succeeds (serve now (Deposit account_id amount) db).1 ∧
  balance_holds (serve now (Deposit account_id amount) db).2 account_id (b + amount) ∧
  (∀ k, k ≠ account_id →
        accounts (serve now (Deposit account_id amount) db).2 !! k = accounts db !! k) ∧
  transactions (serve now (Deposit account_id amount) db).2 = transactions db.
Proof.
  intros Hb. apply balance_of_Some in Hb as (r & Hr & Br).
  rewrite serve_deposit, Hr, Br. cbv zeta. cbn [fst snd].
  apply active_account_Some in Hr as Hr'. destruct Hr' as (_ & _ & D).
  split; [by eexists|]. split; [|split; [|done]].
  - eapply (balance_holds_written now db _ _ account_id r);
      [done| | |apply lookup_insert_eq]; done.
  - intros k Hk. cbn [accounts]. by rewrite lookup_insert_ne.
Qed.

Lemma deposit_adds_amount_witness :
  balance_of alice_100 1 = Some 100%float ∧
  succeeds (serve 1 (Deposit 1 20) alice_100).1 ∧
  balance_holds (serve 1 (Deposit 1 20) alice_100).2 1 (100 + 20) ∧
  (∀ k, k ≠ 1 →
        accounts (serve 1 (Deposit 1 20) alice_100).2 !! k = accounts alice_100 !! k) ∧
  transactions (serve 1 (Deposit 1 20) alice_100).2 = transactions alice_100.
Proof.
  split; [reflexivity|].
  apply (deposit_adds_amount 1 1 20 alice_100 100). reflexivity.
Defined.

(** Sums the binary64 numbers do not hold: 1e16 - 1 is stored as 1e16, and
    1e308 + 1e308 as infinity; a deposit of NaN stores NULL, and the next
    deposit on that account fails. *)
Example deposit_rounding_scenarios :
  let big := (serve 0 (CreateAccount (AccountCreate.mk "A" 1e16 0 0 None)) empty_db).2 in
  let huge := (serve 0 (CreateAccount (AccountCreate.mk "A" 1e308 0 0 None)) empty_db).2 in
  balance_of (serve 1 (Deposit 1 (-1)) big).2 1 = Some 1e16%float ∧
  balance_of (serve 1 (Deposit 1 1e308) huge).2 1 = Some infinity ∧
  succeeds (serve 1 (Deposit 1 nan) a_10).1 ∧
  balance_of (serve 1 (Deposit 1 nan) a_10).2 1 = None ∧
  (serve 2 (Deposit 1 5) (serve 1 (Deposit 1 nan) a_10).2).1 = inl (reraised none_iadd).
Proof. repeat split; try reflexivity. by eexists. Qed.

(** [withdraw] on an active account with balance [b] succeeds exactly when
    [b < amount] is false (so an amount below zero is paid out as a credit,
    and NaN passes); then the account holds the binary64 difference
    [b - amount], as the store keeps it, else the store is unchanged.  The
    other accounts and the journal are untouched either way. *)
Theorem withdraw_outcome now account_id amount db b :
  balance_of db account_id = Some b →
  (succeeds (serve now (Withdraw account_id amount) db).1 ↔ (b <? amount)%float = false) ∧
  ((b <? amount)%float = false →
   balance_holds (serve now (Withdraw account_id amount) db).2 account_id (b - amount)) ∧
  ((b <? amount)%float = true → (serve now (Withdraw account_id amount) db).2 = db) ∧
  (∀ k, k ≠ account_id →
        accounts (serve now (Withdraw account_id amount) db).2 !! k = accounts db !! k) ∧
  transactions (serve now (Withdraw account_id amount) db).2 = transactions db.
Proof.
  intros Hb. apply balance_of_Some in Hb as (r & Hr & Br).
  rewrite serve_withdraw, Hr, Br.
  apply active_account_Some in Hr as Hr'. destruct Hr' as (_ & _ & D).
  destruct (b <? amount)%float eqn:L; cbv zeta; cbn [fst snd].
  - split; [|done]. split; [by intros [? [=]] | done].
  - split; [|split; [|split; [|split]]].
    + split; [done | by eexists].
    + intros _. eapply (balance_holds_written now db _ _ account_id r);
        [done| | |apply lookup_insert_eq]; done.
    + done.
    + intros k Hk. cbn [accounts]. by rewrite lookup_insert_ne.
    + done.
Qed.

Lemma withdraw_outcome_witness :
  balance_of alice_100 1 = Some 100%float ∧
  (succeeds (serve 1 (Withdraw 1 (-30)) alice_100).1 ↔ (100 <? -30)%float = false) ∧
  ((100 <? -30)%float = false →
   balance_holds (serve 1 (Withdraw 1 (-30)) alice_100).2 1 (100 - -30)) ∧
  ((100 <? -30)%float = true → (serve 1 (Withdraw 1 (-30)) alice_100).2 = alice_100) ∧
  (∀ k, k ≠ 1 →
        accounts (serve 1 (Withdraw 1 (-30)) alice_100).2 !! k = accounts alice_100 !! k) ∧
  transactions (serve 1 (Withdraw 1 (-30)) alice_100).2 = transactions alice_100.
Proof.
  split; [reflexivity|].
  apply (withdraw_outcome 1 1 (-30)%float alice_100 100%float). reflexivity.
Defined.

(** [transfer] succeeds exactly when both accounts are active with a balance
    and the balance of the source is not below the amount; whatever the
    outcome, every account other than the two, and the journal, are as they
    were. *)
Theorem transfer_outcome now src tgt amount db :
  (succeeds (serve now (Transfer src tgt amount) db).1 ↔
   ∃ a b, balance_of db src = Some a ∧ balance_of db tgt = Some b ∧
          (a <? amount)%float = false) ∧
  (∀ k, k ≠ src → k ≠ tgt →
        accounts (serve now (Transfer src tgt amount) db).2 !! k = accounts db !! k) ∧
  transactions (serve now (Transfer src tgt amount) db).2 = transactions db.
Proof.
  split.
  { split; [apply transfer_succeeds_inv|].
    intros (a & b & Ha & Hb & L).
    by destruct (transfer_balances now src tgt amount db a b Ha Hb L). }
  rewrite serve_transfer.
  destruct (sqlite_int src && sqlite_int tgt); [|done].
  destruct (active_account db src) as [rs|]; [|done].
  destruct (active_account db tgt) as [rt|]; [|done].
  destruct (AccountDB.balance rs) as [a|]; [|done].
  destruct (a <? amount)%float; [done|].
  case_decide.
  - cbv zeta. cbn [fst snd accounts transactions]. split; [|done].
    intros k Hk _. by rewrite lookup_insert_ne.
  - destruct (AccountDB.balance rt) as [b|]; [|done].
    cbv zeta. cbn [fst snd accounts transactions]. split; [|done].
    intros k Hks Hkt. by rewrite !lookup_insert_ne.
Qed.

(** ** Ledger and journal *)

Lemma serve_transactions_kept now req db :
  journal_request req = false → transactions (serve now req db).2 = transactions db.
Proof.
  intros H. destruct (serve now req db) as [[e|body] db'] eqn:S; cbn [snd].
  { by apply serve_failure_unchanged in S as ->. }
  revert S.
  destruct req as [|a|i|i a|i|i x|i x|i j x|i|i t|i j]; try discriminate H; clear H.
  - rewrite serve_get_accounts. by intros [= _ <-].
  - rewrite serve_create_account. by intros [= _ <-].
  - rewrite serve_get_account. destruct (active_account db i); by intros [= _ <-].
  - rewrite serve_update_account. destruct (active_account db i); by intros [= _ <-].
  - rewrite serve_delete_account. destruct (active_account db i); by intros [= _ <-].
  - rewrite serve_deposit. destruct (active_account db i) as [r|]; [|done].
    destruct (AccountDB.balance r); by intros [= _ <-].
  - rewrite serve_withdraw. destruct (active_account db i) as [r|]; [|done].
    destruct (AccountDB.balance r) as [b|]; [|done].
    destruct (b <? x)%float; by intros [= _ <-].
  - rewrite serve_transfer. destruct (sqlite_int i && sqlite_int j); [|done].
    destruct (active_account db i) as [ri|]; [|done].
    destruct (active_account db j) as [rj|]; [|done].
    destruct (AccountDB.balance ri) as [a|]; [|done].
    destruct (a <? x)%float; [done|].
    case_decide; [by intros [= _ <-]|].
    destruct (AccountDB.balance rj); by intros [= _ <-].
Qed.

Lemma serve_accounts_kept now req db :
  journal_request req = true → accounts (serve now req db).2 = accounts db.
Proof.
  intros H. destruct req as [|a|i|i a|i|i x|i x|i j x|i|i t|i j]; try discriminate H; clear H.
  - rewrite serve_get_transactions. by destruct (sqlite_int i).
  - rewrite serve_create_transaction. by destruct (sqlite_int i).
  - rewrite serve_delete_transaction. destruct (sqlite_int j); [|done].
    destruct (transactions db !! j) as [r|]; [|done].
    by destruct (TransactionDB.deleted_at r).
Qed.

(** The ledger and the journal are apart: the three handlers of the journal
    never change an account, and the other handlers, deposit, withdraw and
    transfer among them, never write or change a journal entry. *)
Theorem ledger_and_journal_apart now req db :
  if journal_request req
  then accounts (serve now req db).2 = accounts db
  else transactions (serve now req db).2 = transactions db.
Proof.
  destruct (journal_request req) eqn:E;
    [by apply serve_accounts_kept | by apply serve_transactions_kept].
Qed.

(** No request removes a journal entry or changes its account, amount, type
    or [created_at]; the only change an entry can undergo is that
    [delete_transaction] on its id sets the [deleted_at] of an entry that
    had none. *)
Theorem journal_append_only now req db k r :
  transactions db !! k = Some r →
  ∃ r', transactions (serve now req db).2 !! k = Some r' ∧
        TransactionDB.account_id r' = TransactionDB.account_id r ∧
        TransactionDB.amount r' = TransactionDB.amount r ∧
        TransactionDB.type r' = TransactionDB.type r ∧
        TransactionDB.created_at r' = TransactionDB.created_at r ∧
        (r' = r ∨
         (TransactionDB.deleted_at r = None ∧ TransactionDB.deleted_at r' = Some now ∧
          ∃ i, req = DeleteTransaction i k)).
Proof.
  intros Hk.
  destruct (journal_request req) eqn:E.
  2: { rewrite serve_transactions_kept by done. exists r. auto 10. }
  destruct req as [|a|i|i a|i|i x|i x|i j x|i|i t|i j]; try discriminate E; clear E.
  - rewrite serve_get_transactions. destruct (sqlite_int i); exists r; auto 10.
  - rewrite serve_create_transaction. destruct (sqlite_int i); [|exists r; auto 10].
    cbv zeta. cbn [snd transactions].
    exists r. rewrite lookup_insert_ne; [auto 10|].
    intros Heq. pose proof (fresh_key_fresh (transactions db)) as Hf. congruence.
  - rewrite serve_delete_transaction. destruct (sqlite_int j); [|exists r; auto 10].
    destruct (transactions db !! j) as [rj|] eqn:Ej; [|exists r; auto 10].
    destruct (TransactionDB.deleted_at rj) eqn:Dj; [exists r; auto 10|].
    cbn [snd transactions]. destruct (decide (j = k)) as [->|Hne].
    + rewrite lookup_insert_eq. assert (rj = r) as -> by congruence.
      eexists. split; [done|]. do 4 (split; [done|]). right. eauto.
    + rewrite lookup_insert_ne by done. exists r. auto 10.
Qed.

Lemma journal_append_only_witness :
  let r := TransactionDB.mk 1 (Some 5%float) "deposit" 2 None in
  transactions journal_db !! 1 = Some r ∧
  ∃ r', transactions (serve 9 (DeleteTransaction 2 1) journal_db).2 !! 1 = Some r' ∧
        TransactionDB.account_id r' = TransactionDB.account_id r ∧
        TransactionDB.amount r' = TransactionDB.amount r ∧
        TransactionDB.type r' = TransactionDB.type r ∧
        TransactionDB.created_at r' = TransactionDB.created_at r ∧
        (r' = r ∨
         (TransactionDB.deleted_at r = None ∧ TransactionDB.deleted_at r' = Some 9 ∧
          ∃ i, DeleteTransaction 2 1 = DeleteTransaction i 1)).
Proof.
  intros r. split; [reflexivity|].
  apply (journal_append_only 9 (DeleteTransaction 2 1) journal_db 1 r). reflexivity.
Defined.

(** [delete_transaction] finds the entry by its id alone: the account id of
    the path is not compared with the account of the entry.  An entry that
    is not deleted is kept with [deleted_at] set to the time of the request;
    it is then absent from the list of its account, a second delete answers
    500 (the 404 raised again), and no account has changed. *)
Theorem delete_transaction_hides now now1 now2 path_account_id transaction_id db r :
  transactions db !! transaction_id = Some r →
  TransactionDB.deleted_at r = None →
  sqlite_int transaction_id = true →
  sqlite_int (TransactionDB.account_id r) = true →
  succeeds (serve now (DeleteTransaction path_account_id transaction_id) db).1 ∧
  transactions (serve now (DeleteTransaction path_account_id transaction_id) db).2
    !! transaction_id = Some (TransactionDB.set_deleted_at (Some now) r) ∧
  accounts (serve now (DeleteTransaction path_account_id transaction_id) db).2
    = accounts db ∧
  (∃ l, (serve now1 (GetTransactions (TransactionDB.account_id r))
           (serve now (DeleteTransaction path_account_id transaction_id) db).2).1
          = inr (BTransactions l) ∧ transaction_id ∉ l.*1) ∧
  serve now2 (DeleteTransaction path_account_id transaction_id)
    (serve now (DeleteTransaction path_account_id transaction_id) db).2
    = (inl (reraised transaction_not_found),
       (serve now (DeleteTransaction path_account_id transaction_id) db).2).
Proof.
  intros E D Hi Ha. rewrite (serve_delete_transaction now), Hi, E, D. cbn [fst snd].
  set (db' := mkDatabase _ _).
  assert (transactions db' !! transaction_id
          = Some (TransactionDB.set_deleted_at (Some now) r)) as Hk
    by apply lookup_insert_eq.
  split; [by eexists|]. split; [done|]. split; [done|]. split.
  - rewrite serve_get_transactions, Ha. cbn [fst]. eexists. split; [done|].
    intros Hin. apply list_elem_of_fmap in Hin as ([j rj] & -> & Hin).
    apply elem_of_map_to_list, map_lookup_filter_Some in Hin as [Hin [_ Hact]].
    cbn [fst snd] in *. rewrite Hk in Hin. injection Hin as <-. done.
  - rewrite serve_delete_transaction, Hi, Hk. done.
Qed.

Lemma delete_transaction_hides_witness :
  let r := TransactionDB.mk 2 (Some 7%float) "transfer" 3 None in
  transactions journal_db !! 2 = Some r ∧
  TransactionDB.deleted_at r = None ∧
  sqlite_int 2 = true ∧
  sqlite_int (TransactionDB.account_id r) = true ∧
  succeeds (serve 9 (DeleteTransaction 1 2) journal_db).1 ∧
  transactions (serve 9 (DeleteTransaction 1 2) journal_db).2 !! 2
    = Some (TransactionDB.set_deleted_at (Some 9) r) ∧
  accounts (serve 9 (DeleteTransaction 1 2) journal_db).2 = accounts journal_db ∧
  (∃ l, (serve 10 (GetTransactions (TransactionDB.account_id r))
           (serve 9 (DeleteTransaction 1 2) journal_db).2).1
          = inr (BTransactions l) ∧ 2 ∉ l.*1) ∧
  serve 11 (DeleteTransaction 1 2) (serve 9 (DeleteTransaction 1 2) journal_db).2
    = (inl (reraised transaction_not_found),
       (serve 9 (DeleteTransaction 1 2) journal_db).2).
Proof.
  intros r. do 4 (split; [reflexivity|]).
  apply (delete_transaction_hides 9 10 11 1 2 journal_db r); reflexivity.
Defined.



(** ** What no request does to an account *)

Lemma kept_refl r : kept r r.
Proof. by repeat split. Qed.

Lemma kept_written now r0 r r1 :
  AccountDB.deleted_at r = None →
  AccountDB.created_at r1 = AccountDB.created_at r →
  AccountDB.deleted_at r1 = AccountDB.deleted_at r →
  kept r (write_row now r0 r1).
Proof.
  intros D Hc Hd. destruct (write_row_columns now r0 r1) as (_ & Hc' & Hd').
  split; [congruence|]. split; [congruence|]. by rewrite D.
Qed.

Lemma kept_insert now (m : gmap Z AccountDB.t) i ri r1 k r :
  m !! i = Some ri → AccountDB.deleted_at ri = None →
  AccountDB.created_at r1 = AccountDB.created_at ri →
  AccountDB.deleted_at r1 = AccountDB.deleted_at ri →
  m !! k = Some r →
  ∃ r', <[i := write_row now ri r1]> m !! k = Some r' ∧ kept r r'.
Proof.
  intros Ei Di Hc Hd Hk.
  destruct (decide (i = k)) as [->|Hne].
  - rewrite lookup_insert_eq. assert (ri = r) as -> by congruence.
    eexists. split; [done|]. by apply kept_written.
  - rewrite lookup_insert_ne by done. exists r. split; [done | apply kept_refl].
Qed.

(** No request changes the [created_at] or the [deleted_at] of an account,
    and a row whose [deleted_at] is set is never changed at all.  A row
    leaves the table only through [delete_account] on its own id, and only
    if it was active. *)
Theorem account_rows_kept now req db k r :
  accounts db !! k = Some r →
  (req = DeleteAccount k ∧ AccountDB.deleted_at r = None ∧
   accounts (serve now req db).2 !! k = None) ∨
  (∃ r', accounts (serve now req db).2 !! k = Some r' ∧
         AccountDB.created_at r' = AccountDB.created_at r ∧
         AccountDB.deleted_at r' = AccountDB.deleted_at r ∧
         (AccountDB.deleted_at r ≠ None → r' = r)).
Proof.
  intros Hk.
  assert (∀ m : gmap Z AccountDB.t, m !! k = Some r →
            ∃ r', m !! k = Some r' ∧ kept r r') as Hsame
    by (intros m Hm; exists r; split; [done | apply kept_refl]).
  destruct (journal_request req) eqn:E.
  { right. rewrite serve_accounts_kept by done. by apply Hsame. }
  destruct req as [|a|i|i a|i|i x|i x|i j x|i|i t|i j]; try discriminate E; clear E.
  - right. rewrite serve_get_accounts. by apply Hsame.
  - right. rewrite serve_create_account. cbv zeta. cbn [snd accounts].
    rewrite lookup_insert_ne; [by apply Hsame|].
    intros Heq. pose proof (fresh_key_fresh (accounts db)) as Hf. congruence.
  - right. rewrite serve_get_account. destruct (active_account db i); by apply Hsame.
  - rewrite serve_update_account.
    destruct (active_account db i) as [ri|] eqn:Ei; [|right; by apply Hsame].
    apply active_account_Some in Ei as (_ & Ei & Di).
    right. cbv zeta. cbn [snd accounts]. by apply (kept_insert now _ i ri).
  - rewrite serve_delete_account.
    destruct (active_account db i) as [ri|] eqn:Ei; [|right; by apply Hsame].
    cbn [snd accounts]. destruct (decide (i = k)) as [->|Hne].
    + left. apply active_account_Some in Ei as (_ & Ei & Di).
      assert (ri = r) as -> by congruence.
      split; [done|]. split; [done|]. apply lookup_delete_eq.
    + right. rewrite lookup_delete_ne by done. by apply Hsame.
  - rewrite serve_deposit.
    destruct (active_account db i) as [ri|] eqn:Ei; [|right; by apply Hsame].
    destruct (AccountDB.balance ri) as [b|]; [|right; by apply Hsame].
    apply active_account_Some in Ei as (_ & Ei & Di).
    right. cbv zeta. cbn [snd accounts]. by apply (kept_insert now _ i ri).
  - rewrite serve_withdraw.
    destruct (active_account db i) as [ri|] eqn:Ei; [|right; by apply Hsame].
    destruct (AccountDB.balance ri) as [b|]; [|right; by apply Hsame].
    destruct (b <? x)%float; [right; by apply Hsame|].
    apply active_account_Some in Ei as (_ & Ei & Di).
    right. cbv zeta. cbn [snd accounts]. by apply (kept_insert now _ i ri).
  - right. rewrite serve_transfer.
    destruct (sqlite_int i && sqlite_int j); [|by apply Hsame].
    destruct (active_account db i) as [ri|] eqn:Ei; [|by apply Hsame].
    destruct (active_account db j) as [rj|] eqn:Ej; [|by apply Hsame].
    destruct (AccountDB.balance ri) as [a|]; [|by apply Hsame].
    destruct (a <? x)%float; [by apply Hsame|].
    apply active_account_Some in Ei as (_ & Ei & Di).
    apply active_account_Some in Ej as (_ & Ej & Dj).
    case_decide as Hij.
    + cbv zeta. cbn [snd accounts]. by apply (kept_insert now _ i ri).
    + destruct (AccountDB.balance rj) as [b|]; [|by apply Hsame].
      cbv zeta. cbn [snd accounts].
      destruct (decide (j = k)) as [->|Hjk].
      * rewrite lookup_insert_eq. assert (rj = r) as -> by congruence.
        eexists. split; [done|]. by apply kept_written.
      * rewrite lookup_insert_ne by done. by apply (kept_insert now _ i ri).
Qed.

Lemma account_rows_kept_witness :
  let r := AccountDB.mk (Some 100%float) "Alice" 0 0 None in
  accounts alice_100 !! 1 = Some r ∧
  ((Deposit 1 20 = DeleteAccount 1 ∧ AccountDB.deleted_at r = None ∧
    accounts (serve 5 (Deposit 1 20) alice_100).2 !! 1 = None) ∨
   (∃ r', accounts (serve 5 (Deposit 1 20) alice_100).2 !! 1 = Some r' ∧
          AccountDB.created_at r' = AccountDB.created_at r ∧
          AccountDB.deleted_at r' = AccountDB.deleted_at r ∧
          (AccountDB.deleted_at r ≠ None → r' = r))).
Proof.
  intros r. split; [reflexivity|].
  apply (account_rows_kept 5 (Deposit 1 20) alice_100 1 r). reflexivity.
Defined.

(** ** Responses and the store *)

(** Every row a successful response shows is a row of the store as the
    request left it: an account in the body is stored under its id with
    exactly the columns shown, and so is a journal entry. *)
Theorem response_shows_the_store now req db body :
  (serve now req db).1 = inr body →
  (∀ k r, (k, r) ∈ body_accounts body → accounts (serve now req db).2 !! k = Some r) ∧
  (∀ k r, (k, r) ∈ body_transactions body →
          transactions (serve now req db).2 !! k = Some r).
Proof.
  destruct req as [|a|i|i a|i|i x|i x|i j x|i|i t|i j].
  - rewrite serve_get_accounts. intros [= <-]. cbn. split; [|by intros ?? ?%elem_of_nil].
    intros k r Hin. by apply elem_of_map_to_list, map_lookup_filter_Some in Hin as [Hin _].
  - rewrite serve_create_account. cbv zeta. cbn [fst snd]. intros [= <-].
    cbn [body_accounts body_transactions accounts].
    split; [|by intros ?? ?%elem_of_nil].
    intros k r [= -> ->]%list_elem_of_singleton. apply lookup_insert_eq.
  - rewrite serve_get_account. destruct (active_account db i) as [ri|] eqn:Ei; [|done].
    cbn [fst snd]. intros [= <-]. cbn [body_accounts body_transactions].
    split; [|by intros ?? ?%elem_of_nil].
    intros k r [= -> ->]%list_elem_of_singleton.
    by apply active_account_Some in Ei as (_ & ? & _).
  - rewrite serve_update_account. destruct (active_account db i) as [ri|] eqn:Ei; [|done].
    cbv zeta. cbn [fst snd]. intros [= <-]. cbn [body_accounts body_transactions accounts].
    split; [|by intros ?? ?%elem_of_nil].
    intros k r [= -> ->]%list_elem_of_singleton. apply lookup_insert_eq.
  - rewrite serve_delete_account. destruct (active_account db i) as [ri|] eqn:Ei; [|done].
    cbn [fst snd]. intros [= <-]. cbn [body_accounts body_transactions].
    split; by intros ?? ?%elem_of_nil.
  - rewrite serve_deposit. destruct (active_account db i) as [ri|] eqn:Ei; [|done].
    destruct (AccountDB.balance ri) as [b|]; [|done].
    cbv zeta. cbn [fst snd]. intros [= <-]. cbn [body_accounts body_transactions accounts].
    split; [|by intros ?? ?%elem_of_nil].
    intros k r [= -> ->]%list_elem_of_singleton. apply lookup_insert_eq.
  - rewrite serve_withdraw. destruct (active_account db i) as [ri|] eqn:Ei; [|done].
    destruct (AccountDB.balance ri) as [b|]; [|done].
    destruct (b <? x)%float; [done|].
    cbv zeta. cbn [fst snd]. intros [= <-]. cbn [body_accounts body_transactions accounts].
    split; [|by intros ?? ?%elem_of_nil].
    intros k r [= -> ->]%list_elem_of_singleton. apply lookup_insert_eq.
  - rewrite serve_transfer. destruct (sqlite_int i && sqlite_int j); [|done].
    destruct (active_account db i) as [ri|] eqn:Ei; [|done].
    destruct (active_account db j) as [rj|] eqn:Ej; [|done].
    destruct (AccountDB.balance ri) as [a|]; [|done].
    destruct (a <? x)%float; [done|].
    case_decide as Hij.
    + subst j. cbv zeta. cbn [fst snd]. intros [= <-].
      cbn [body_accounts body_transactions accounts].
      split; [|by intros ?? ?%elem_of_nil].
      intros k r Hin. apply elem_of_cons in Hin as [[= -> ->]|Hin].
      * apply lookup_insert_eq.
      * apply list_elem_of_singleton in Hin as [= -> ->]. apply lookup_insert_eq.
    + destruct (AccountDB.balance rj) as [b|]; [|done].
      cbv zeta. cbn [fst snd]. intros [= <-].
      cbn [body_accounts body_transactions accounts].
      split; [|by intros ?? ?%elem_of_nil].
      intros k r Hin. apply elem_of_cons in Hin as [[= -> ->]|Hin].
      * by rewrite lookup_insert_ne, lookup_insert_eq.
      * apply list_elem_of_singleton in Hin as [= -> ->]. apply lookup_insert_eq.
  - rewrite serve_get_transactions. destruct (sqlite_int i); [|done].
    intros [= <-]. cbn. split; [by intros ?? ?%elem_of_nil|].
    intros k r Hin. by apply elem_of_map_to_list, map_lookup_filter_Some in Hin as [Hin _].
  - rewrite serve_create_transaction. destruct (sqlite_int i); [|done].
    cbv zeta. cbn [fst snd]. intros [= <-].
    cbn [body_accounts body_transactions transactions].
    split; [by intros ?? ?%elem_of_nil|].
    intros k r [= -> ->]%list_elem_of_singleton. apply lookup_insert_eq.
  - rewrite serve_delete_transaction. destruct (sqlite_int j); [|done].
    destruct (transactions db !! j) as [rj|]; [|done].
    destruct (TransactionDB.deleted_at rj); [done|].
    cbn [fst snd]. intros [= <-]. cbn [body_accounts body_transactions].
    split; by intros ?? ?%elem_of_nil.
Qed.

Lemma response_shows_the_store_witness :
  let body := BMessageTransfer "Transfer successful"
                (1, AccountDB.mk (Some 0%float) "A" 0 2 None)
                (2, AccountDB.mk (Some 50%float) "B" 1 2 None) in
  (serve 2 (Transfer 1 2 50) a50_b0).1 = inr body ∧
  (∀ k r, (k, r) ∈ body_accounts body →
          accounts (serve 2 (Transfer 1 2 50) a50_b0).2 !! k = Some r) ∧
  (∀ k r, (k, r) ∈ body_transactions body →
          transactions (serve 2 (Transfer 1 2 50) a50_b0).2 !! k = Some r).
Proof.
  intros body.
  assert ((serve 2 (Transfer 1 2 50) a50_b0).1 = inr body) as H by (vm_compute; reflexivity).
  split; [exact H|].
  exact (response_shows_the_store 2 (Transfer 1 2 50) a50_b0 body H).
Defined.

(** ** Failures, once more *)

(** A request that fails changes nothing, and the caller is told 500: a
    transfer whose target is missing does not debit its source, and a
    refused withdrawal takes nothing. *)
Theorem failed_request_changes_nothing now req db e :
  (serve now req db).1 = inl e →
  (serve now req db).2 = db ∧ status_code_of e = Some 500.
Proof.
  intros H. split; [|by apply every_failure_is_500 in H].
  destruct (serve now req db) as [r db'] eqn:S. cbn [fst snd] in *. subst r.
  by apply serve_failure_unchanged in S.
Qed.

Lemma failed_request_changes_nothing_witness :
  (serve 2 (Transfer 1 7 5) a10_b10).1 = inl (reraised account_not_found) ∧
  (serve 2 (Transfer 1 7 5) a10_b10).2 = a10_b10 ∧
  status_code_of (reraised account_not_found) = Some 500.
Proof.
  split; [reflexivity|].
  apply (failed_request_changes_nothing 2 (Transfer 1 7 5) a10_b10). reflexivity.
Defined.

(** An account that is absent, or whose [deleted_at] is set, is out of reach
    of the six handlers that take an account id: for ids within the 64 bits
    of the column each answers 500 (the 404 "Account not found" raised
    again) and changes nothing, also a transfer that names it as source or
    as target. *)
Theorem inactive_account_out_of_reach now db account_id :
  sqlite_int account_id = true →
  active_account db account_id = None →
  serve now (GetAccount account_id) db = (inl (reraised account_not_found), db) ∧
  (∀ a, serve now (UpdateAccount account_id a) db = (inl (reraised account_not_found), db)) ∧
  serve now (DeleteAccount account_id) db = (inl (reraised account_not_found), db) ∧
  (∀ x, serve now (Deposit account_id x) db = (inl (reraised account_not_found), db)) ∧
  (∀ x, serve now (Withdraw account_id x) db = (inl (reraised account_not_found), db)) ∧
  (∀ j x, sqlite_int j = true →
          serve now (Transfer account_id j x) db = (inl (reraised account_not_found), db)) ∧
  (∀ i x, sqlite_int i = true →
          serve now (Transfer i account_id x) db = (inl (reraised account_not_found), db)).
Proof.
  intros Hi Hn.
  repeat split; intros; apply (not_found_reraised now db account_id Hi Hn); eauto 10.
Qed.

Lemma inactive_account_out_of_reach_witness :
  let db := (serve 0 (CreateAccount ghost_account) a10_b10).2 in
  sqlite_int 3 = true ∧
  active_account db 3 = None ∧
  serve 1 (GetAccount 3) db = (inl (reraised account_not_found), db) ∧
  (∀ a, serve 1 (UpdateAccount 3 a) db = (inl (reraised account_not_found), db)) ∧
  serve 1 (DeleteAccount 3) db = (inl (reraised account_not_found), db) ∧
  (∀ x, serve 1 (Deposit 3 x) db = (inl (reraised account_not_found), db)) ∧
  (∀ x, serve 1 (Withdraw 3 x) db = (inl (reraised account_not_found), db)) ∧
  (∀ j x, sqlite_int j = true →
          serve 1 (Transfer 3 j x) db = (inl (reraised account_not_found), db)) ∧
  (∀ i x, sqlite_int i = true →
          serve 1 (Transfer i 3 x) db = (inl (reraised account_not_found), db)).
Proof.
  intros db. split; [reflexivity|]. split; [reflexivity|].
  apply (inactive_account_out_of_reach 1 db 3); reflexivity.
Defined.

(** An id beyond the 64 bits of an [Integer] column cannot be bound to a
    statement: every handler that is given one, as the account of the path
    or of a transfer or as the transaction to delete, answers 500 around the
    [OverflowError], and nothing is stored. *)
Theorem oversized_id_refused now db id :
  sqlite_int id = false →
  serve now (GetAccount id) db = (inl (reraised int_too_large), db) ∧
  (∀ a, serve now (UpdateAccount id a) db = (inl (reraised int_too_large), db)) ∧
  serve now (DeleteAccount id) db = (inl (reraised int_too_large), db) ∧
  (∀ x, serve now (Deposit id x) db = (inl (reraised int_too_large), db)) ∧
  (∀ x, serve now (Withdraw id x) db = (inl (reraised int_too_large), db)) ∧
  (∀ j x, serve now (Transfer id j x) db = (inl (reraised int_too_large), db)) ∧
  (∀ i x, serve now (Transfer i id x) db = (inl (reraised int_too_large), db)) ∧
  serve now (GetTransactions id) db = (inl (reraised int_too_large), db) ∧
  (∀ t, serve now (CreateTransaction id t) db = (inl (reraised int_too_large), db)) ∧
  (∀ i, serve now (DeleteTransaction i id) db = (inl (reraised int_too_large), db)).
Proof.
  intros Hi.
  assert (active_account db id = None) as Hn by (unfold active_account; by rewrite Hi).
  repeat split; intros;
    rewrite ?serve_get_account, ?serve_update_account, ?serve_delete_account,
      ?serve_deposit, ?serve_withdraw, ?serve_transfer, ?serve_get_transactions,
      ?serve_create_transaction, ?serve_delete_transaction;
    unfold no_account; rewrite ?Hn, ?Hi, ?andb_false_r; done.
Qed.

Lemma oversized_id_refused_witness :
  let id := 9223372036854775808 in
  sqlite_int id = false ∧
  serve 1 (GetAccount id) a_10 = (inl (reraised int_too_large), a_10) ∧
  (∀ a, serve 1 (UpdateAccount id a) a_10 = (inl (reraised int_too_large), a_10)) ∧
  serve 1 (DeleteAccount id) a_10 = (inl (reraised int_too_large), a_10) ∧
  (∀ x, serve 1 (Deposit id x) a_10 = (inl (reraised int_too_large), a_10)) ∧
  (∀ x, serve 1 (Withdraw id x) a_10 = (inl (reraised int_too_large), a_10)) ∧
  (∀ j x, serve 1 (Transfer id j x) a_10 = (inl (reraised int_too_large), a_10)) ∧
  (∀ i x, serve 1 (Transfer i id x) a_10 = (inl (reraised int_too_large), a_10)) ∧
  serve 1 (GetTransactions id) a_10 = (inl (reraised int_too_large), a_10) ∧
  (∀ t, serve 1 (CreateTransaction id t) a_10 = (inl (reraised int_too_large), a_10)) ∧
  (∀ i, serve 1 (DeleteTransaction i id) a_10 = (inl (reraised int_too_large), a_10)).
Proof.
  intros id. split; [reflexivity|].
  apply (oversized_id_refused 1 a_10 id). reflexivity.
Defined.



(** ** The journal of a deleted account *)

(** Deleting an account does not touch its journal: the entries of the
    account are stored and listed after the delete as before. *)
Theorem delete_account_keeps_journal now now' account_id db :
  transactions (serve now (DeleteAccount account_id) db).2 = transactions db ∧
  (serve now' (GetTransactions account_id) (serve now (DeleteAccount account_id) db).2).1
    = (serve now' (GetTransactions account_id) db).1.
Proof.
  assert (transactions (serve now (DeleteAccount account_id) db).2 = transactions db) as H
    by by apply serve_transactions_kept.
  split; [done|]. rewrite !serve_get_transactions.
  destruct (sqlite_int account_id); [|done]. cbn [fst]. by rewrite H.
Qed.

(** The journal of account 1 of the sample store, with account 1 deleted. *)
Example delete_account_keeps_journal_example :
  succeeds (serve 9 (DeleteAccount 1) journal_db).1 ∧
  (serve 10 (GetTransactions 1) (serve 9 (DeleteAccount 1) journal_db).2).1
    = inr (BTransactions [(1, TransactionDB.mk 1 (Some 5%float) "deposit" 2 None)]).
Proof. split; [by eexists | reflexivity]. Qed.
